(** * samcli.lib.utils.subprocess_utils

    A shallow embedding of [src/samcli/lib/utils/subprocess_utils.py] and the
    properties of [invoke_subprocess_with_loading_pattern],
    [_check_and_convert_stream_to_string], [_check_and_process_bytes] and
    [LoadingPatternError].

    Python [str] values are lists of Unicode code points, [bytes] values are
    lists of bytes, and the [command_args] dictionary is a finite map from
    keys to Python values.  The effects of the function (the mutation of the
    caller's dictionary, the launch, the calls of the loading pattern, the
    writes to the stream writer, the release of the process handle) are
    threaded through a small state and exception monad, and recorded in a
    trace.

    The child process is given by what the function can observe of it: how
    many times [poll()] answers [None] before the child has exited, what
    its pipes yield, and what [wait()] gives.  A child that never exits, or
    that blocks on a full pipe, is outside this model, and so is a stream
    writer whose [write] or [flush] fails. *)

From Stdlib Require Import ZArith NArith List String Ascii Lia.
From Stdlib Require Import Strings.Byte DecimalString QArith.
From stdpp Require Import gmap strings list fin_maps.

Local Open Scope N_scope.
Local Set Warnings "-register-all".

(** ** Text and bytes *)

(** A Python [str]: a sequence of Unicode code points. *)
Abbreviation text := (list N).

(** A Python [bytes] object. *)
Abbreviation bytes := (list byte).

(** An ASCII literal as a [str]. *)
Definition txt (s : string) : text :=
  N_of_ascii <$> list_ascii_of_string s.

(** An ASCII literal as [bytes] (what [s.encode()] gives for ASCII [s]). *)
Definition encode_ascii (s : string) : bytes :=
  list_byte_of_string s.

(** [AnyStr]: the value handed to [_check_and_process_bytes]. *)
Inductive AnyStr :=
| PyBytes (b : bytes)
| PyStr (s : text).

(** *** [bytes.decode("utf-8")] (strict error handler) *)

Definition in_range (lo hi b : N) : bool := (lo <=? b) && (b <=? hi).

Definition is_continuation (b : N) : bool := in_range 0x80 0xBF b.

(** Payload of a continuation byte / of a lead byte with [k] payload bits. *)
Definition low_bits (k b : N) : N := N.land b (N.ones k).

Fixpoint utf8_decode_N (bs : list N) : option text :=
  match bs with
  | [] => Some []
  | b0 :: r0 =>
    if b0 <? 0x80 then
      cons b0 <$> utf8_decode_N r0
    else if in_range 0xC2 0xDF b0 then
      match r0 with
      | b1 :: r1 =>
        if is_continuation b1
        then cons (N.shiftl (low_bits 5 b0) 6 + low_bits 6 b1) <$> utf8_decode_N r1
        else None
      | _ => None
      end
    else if in_range 0xE0 0xEF b0 then
      match r0 with
      | b1 :: b2 :: r2 =>
        if in_range (if b0 =? 0xE0 then 0xA0 else 0x80)
                    (if b0 =? 0xED then 0x9F else 0xBF) b1
           && is_continuation b2
        then cons (N.shiftl (low_bits 4 b0) 12 + N.shiftl (low_bits 6 b1) 6
                   + low_bits 6 b2) <$> utf8_decode_N r2
        else None
      | _ => None
      end
    else if in_range 0xF0 0xF4 b0 then
      match r0 with
      | b1 :: b2 :: b3 :: r3 =>
        if in_range (if b0 =? 0xF0 then 0x90 else 0x80)
                    (if b0 =? 0xF4 then 0x8F else 0xBF) b1
           && is_continuation b2 && is_continuation b3
        then cons (N.shiftl (low_bits 3 b0) 18 + N.shiftl (low_bits 6 b1) 12
                   + N.shiftl (low_bits 6 b2) 6 + low_bits 6 b3)
               <$> utf8_decode_N r3
        else None
      | _ => None
      end
    else None
  end.

(** [b.decode("utf-8")]: [None] stands for [UnicodeDecodeError]. *)
Definition utf8_decode (b : bytes) : option text :=
  utf8_decode_N (Byte.to_N <$> b).

(** *** [str.strip()] *)

(** [str.isspace] on one code point (the code points the Unicode database
    classes as whitespace, which [str.strip()] without argument removes). *)
Definition isspace (c : N) : bool :=
  in_range 0x09 0x0D c || in_range 0x1C 0x20 c
  || (c =? 0x85) || (c =? 0xA0) || (c =? 0x1680)
  || in_range 0x2000 0x200A c
  || (c =? 0x2028) || (c =? 0x2029) || (c =? 0x202F)
  || (c =? 0x205F) || (c =? 0x3000).

Fixpoint lstrip (s : text) : text :=
  match s with
  | c :: r => if isspace c then lstrip r else s
  | [] => []
  end.

Fixpoint rstrip (s : text) : text :=
  match s with
  | c :: r =>
    match rstrip r with
    | [] => if isspace c then [] else [c]
    | r' => c :: r'
    end
  | [] => []
  end.

(** [s.strip()]: whitespace is removed at both ends. *)
Definition strip (s : text) : text := rstrip (lstrip s).


(** ** Python values, exceptions and the runtime *)

(** The values a [command_args] dictionary holds ([Dict[str, Any]]): the
    function only tests them for truth and formats them with [str()];
    [VObject] is any other object (an open file, say), given by the text
    its [str()] and [repr()] show and by its truth value. *)
Inductive PyVal :=
| VNone
| VBool (b : bool)
| VInt (n : Z)
| VStr (s : text)
| VList (items : list PyVal)
| VObject (shown : text) (truth : bool).

(** [subprocess.PIPE]. *)
Definition PIPE : PyVal := VInt (-1).

(** [logging.INFO]. *)
Definition INFO : Z := 20.

(** [bool(v)]. *)
Definition truthy (v : PyVal) : bool :=
  match v with
  | VNone => false
  | VBool b => b
  | VInt n => negb (n =? 0)%Z
  | VStr s => negb (bool_decide (s = []))
  | VList l => match l with [] => false | _ => true end
  | VObject _ t => t
  end.

(** [x == PIPE] as [Popen] tests its redirection arguments. *)
Definition is_PIPE (v : option PyVal) : bool :=
  match v with
  | Some (VInt n) => (n =? -1)%Z
  | _ => false
  end.

Inductive ExcClass :=
| Exception
| OSError
| FileNotFoundError
| ValueError
| UnicodeDecodeError
| LookupError
| KeyError
| IndexError
| TypeError
| LoadingPatternError.

#[global] Instance ExcClass_eq_dec : EqDecision ExcClass.
Proof. solve_decision. Defined.

(** The proper base classes of each class ([UserException] and
    [click.ClickException], between [LoadingPatternError] and [Exception],
    are not named: nothing here catches them). *)
Definition exc_bases (c : ExcClass) : list ExcClass :=
  match c with
  | Exception => []
  | FileNotFoundError => [OSError; Exception]
  | UnicodeDecodeError => [ValueError; Exception]
  | KeyError | IndexError => [LookupError; Exception]
  | _ => [Exception]
  end.

(** A raised exception: its class and the text [str(e)] gives. *)
Record PyExc := mkExc { exc_class : ExcClass; exc_text : text }.

Definition isinstance (e : PyExc) (c : ExcClass) : bool :=
  bool_decide (exc_class e = c) || bool_decide (c ∈ exc_bases (exc_class e)).

(** The result of evaluating a Python expression. *)
Inductive PyResult (A : Type) :=
| Ok (a : A)
| Raise (e : PyExc).
Arguments Ok {A} a.
Arguments Raise {A} e.

(** What the code takes from the interpreter and the platform without
    defining it. *)
Class PythonRuntime := {
  (** [repr(s)] of a [str] (quoting and escapes) *)
  repr_text : text -> text;
  (** [str(e)] of the [UnicodeDecodeError] that decoding [b] raises *)
  decode_error_text : bytes -> text;
  (** the rendering of a replacement field of [str.format] that looks up
      [ex] with an attribute, an index, a conversion or a format spec, or
      whose name starts with more than eighteen digits or has a character
      outside ASCII after its digits: given the field name, the
      conversion, the format spec and the value of [ex] *)
  format_other_field : text -> option N -> text -> text -> PyResult text;
  (** [os.linesep] *)
  linesep : text;
}.

(** [str(n)] of an [int]. *)
Definition decimal (n : Z) : text := txt (NilZero.string_of_int (Z.to_int n)).

Section Formatting.
Context `{PythonRuntime}.

Fixpoint join (sep : text) (parts : list text) : text :=
  match parts with
  | [] => []
  | [p] => p
  | p :: ps => p ++ sep ++ join sep ps
  end.

(** [repr(v)]. *)
Fixpoint py_repr (v : PyVal) : text :=
  match v with
  | VNone => txt "None"
  | VBool true => txt "True"
  | VBool false => txt "False"
  | VInt n => decimal n
  | VStr s => repr_text s
  | VList items => txt "[" ++ join (txt ", ") (map py_repr items) ++ txt "]"
  | VObject shown _ => shown
  end.

(** [str(v)], which is what an f-string field [{v}] inserts. *)
Definition py_str (v : PyVal) : text :=
  match v with
  | VStr s => s
  | _ => py_repr v
  end.
End Formatting.

(** ** [str.format] with the single keyword argument [ex]

    [LoadingPatternError.__init__] passes its message, already built by an
    f-string, through [message_fmt.format(ex=self.ex)].  The scan below
    follows CPython's [MarkupIterator_next] and [parse_field] one character
    at a time: literal text, the escapes [{{] and [}}], and replacement
    fields [{name!conversion:spec}]. *)

Definition chr (a : ascii) : N := N_of_ascii a.

Inductive Scan :=
| InLiteral
| AfterOpen                                  (* a "{" was read *)
| AfterClose                                 (* a "}" was read in literal text *)
| InName (name : text) (bracket : bool)      (* in a field name; inside [...] *)
| AtConversion (name : text)                 (* a "!" was read *)
| AfterConversion (name : text) (conv : N)
| InSpec (name : text) (conv : option N) (spec : text) (depth : nat).

(** A complete replacement field. *)
Record Field := mkField {
  field_name : text;
  field_conversion : option N;
  field_spec : text;
}.

#[global] Instance Field_eq_dec : EqDecision Field.
Proof. solve_decision. Defined.

Inductive Step :=
| Output (out : text) (next : Scan)
| Complete (f : Field)
| Invalid (e : PyExc).

Definition format_error (msg : string) : PyExc := mkExc ValueError (txt msg).

Definition step_name (name : text) (bracket : bool) (c : N) : Step :=
  if bracket then
    Output [] (InName (name ++ [c]) (negb (c =? chr "]")))
  else if c =? chr "{" then Invalid (format_error "unexpected '{' in field name")
  else if c =? chr "[" then Output [] (InName (name ++ [c]) true)
  else if c =? chr "}" then Complete (mkField name None [])
  else if c =? chr ":" then Output [] (InSpec name None [] 1)
  else if c =? chr "!" then Output [] (AtConversion name)
  else Output [] (InName (name ++ [c]) false).

Definition step (st : Scan) (c : N) : Step :=
  match st with
  | InLiteral =>
    if c =? chr "{" then Output [] AfterOpen
    else if c =? chr "}" then Output [] AfterClose
    else Output [c] InLiteral
  | AfterOpen =>
    if c =? chr "{" then Output [c] InLiteral else step_name [] false c
  | AfterClose =>
    if c =? chr "}" then Output [c] InLiteral
    else Invalid (format_error "Single '}' encountered in format string")
  | InName name bracket => step_name name bracket c
  | AtConversion name => Output [] (AfterConversion name c)
  | AfterConversion name conv =>
    if c =? chr "}" then Complete (mkField name (Some conv) [])
    else if c =? chr ":" then Output [] (InSpec name (Some conv) [] 1)
    else Invalid (format_error "expected ':' after conversion specifier")
  | InSpec name conv spec depth =>
    if c =? chr "{" then Output [] (InSpec name conv (spec ++ [c]) (S depth))
    else if c =? chr "}" then
      match depth with
      | 1%nat => Complete (mkField name conv spec)
      | _ => Output [] (InSpec name conv (spec ++ [c]) (pred depth))
      end
    else Output [] (InSpec name conv (spec ++ [c]) depth)
  end.

Definition end_of_format (st : Scan) : PyResult text :=
  match st with
  | InLiteral => Ok []
  | AfterOpen => Raise (format_error "Single '{' encountered in format string")
  | AfterClose => Raise (format_error "Single '}' encountered in format string")
  | InName _ _ => Raise (format_error "expected '}' before end of string")
  | AtConversion _ =>
    Raise (format_error "end of string while looking for conversion specifier")
  | AfterConversion _ _ | InSpec _ _ _ _ =>
    Raise (format_error "unmatched '{' in format spec")
  end.

Definition is_ascii_digit (c : N) : bool := in_range (chr "0") (chr "9") c.

(** The part of a field name before the first "." or "[". *)
Fixpoint first_part (name : text) : text :=
  match name with
  | c :: r => if (c =? chr ".") || (c =? chr "[") then [] else c :: first_part r
  | [] => []
  end.

(** How [str.format] reads the first part of a field name: it reads
    decimal digits for as long as there are some; a name of digits only
    is an index into the positional arguments, a name with another
    character is a keyword.  [Unsure] is for what is left to the runtime:
    more than eighteen digits (the index may overflow) and a character
    outside ASCII after the digits (it may be a decimal digit of another
    script). *)
Inductive NameKind :=
| Positional (index : Z)
| Keyword
| Unsure.

Fixpoint classify (seen : nat) (index : Z) (name : text) : NameKind :=
  match name with
  | [] => Positional index
  | c :: rest =>
    if is_ascii_digit c then
      if (18 <=? seen)%nat then Unsure
      else classify (S seen) (10 * index + Z.of_N (c - chr "0"))%Z rest
    else if c <? 0x80 then Keyword
    else Unsure
  end.

Section Format.
Context `{PythonRuntime}.

Definition positional_error (index : Z) : PyExc :=
  mkExc IndexError
    (txt "Replacement index " ++ decimal index
     ++ txt " out of range for positional args tuple").

(** The value of a replacement field when the only argument is the
    keyword [ex], a [str]: a plain [{ex}] is the value itself; an empty
    or numeric name asks for a positional argument and there is none
    ([IndexError]); any other name than [ex] is a keyword that was not
    passed ([KeyError]). *)
Definition render_field (f : Field) (ex : text) : PyResult text :=
  let first := first_part (field_name f) in
  if bool_decide (f = mkField (txt "ex") None []) then Ok ex
  else match first with
  | [] => Raise (positional_error 0)
  | _ =>
    match classify 0 0 first with
    | Positional index => Raise (positional_error index)
    | Keyword =>
      if bool_decide (first = txt "ex") then
        format_other_field (field_name f) (field_conversion f) (field_spec f) ex
      else Raise (mkExc KeyError (repr_text first))
    | Unsure =>
      format_other_field (field_name f) (field_conversion f) (field_spec f) ex
    end
  end.

Fixpoint format_scan (st : Scan) (template ex : text) : PyResult text :=
  match template with
  | [] => end_of_format st
  | c :: rest =>
    match step st c with
    | Invalid e => Raise e
    | Output out next =>
      match format_scan next rest ex with
      | Ok tail => Ok (out ++ tail)
      | Raise e => Raise e
      end
    | Complete f =>
      match render_field f ex with
      | Ok out =>
        match format_scan InLiteral rest ex with
        | Ok tail => Ok (out ++ tail)
        | Raise e => Raise e
        end
      | Raise e => Raise e
      end
    end
  end.

(** [template.format(ex=ex)]. *)
Definition str_format (template ex : text) : PyResult text :=
  format_scan InLiteral template ex.

(** [LoadingPatternError(ex)]: evaluating the constructor call gives the
    exception object, or raises what [str.format] raises. *)
Definition new_LoadingPatternError (ex : text) : PyResult PyExc :=
  let message_fmt := txt "Failed to execute the subprocess. " ++ ex in
  match str_format message_fmt ex with
  | Ok message => Ok (mkExc LoadingPatternError message)
  | Raise e => Raise e
  end.
End Format.

(** ** The world the function runs in *)

(** A [StreamWriter]: one the caller passes, or the one the function makes
    around [sys.stderr]. *)
Inductive Writer :=
| GivenWriter (id : nat)
| StderrWriter.

(** What a stream writer and the clock are asked to do. *)
Inductive IO :=
| Write (w : Writer) (s : text)
| Flush (w : Writer)
| Sleep (seconds : Q).

(** A pipe of the child: what iterating over it yields, line by line. *)
Inductive Stream :=
| BinaryIO (lines : list bytes)
| TextIO (lines : list text).

(** [for line in stream]. *)
Definition stream_lines (s : Stream) : list AnyStr :=
  match s with
  | BinaryIO ls => PyBytes <$> ls
  | TextIO ls => PyStr <$> ls
  end.

(** [stream.read()]: all that is left in the pipe. *)
Definition stream_read (s : Stream) : AnyStr :=
  match s with
  | BinaryIO ls => PyBytes (concat ls)
  | TextIO ls => PyStr (concat ls)
  end.

(** The pipe once read to its end. *)
Definition drained (s : Stream) : Stream :=
  match s with
  | BinaryIO _ => BinaryIO []
  | TextIO _ => TextIO []
  end.

(** What a launched child does: how many times [poll()] still answers
    [None], what it writes to its standard output and standard error, and
    what [wait()] gives (the exit code, or an exception). *)
Record Child := mkChild {
  child_polls : nat;
  child_stdout : Stream;
  child_stderr : Stream;
  child_wait : PyResult Z;
}.

(** The operating system: [Popen], called with keyword arguments, raises
    or starts a child. *)
Definition OS : Type := gmap string PyVal -> PyResult Child.

(** The [Popen] object: its pipes are attached only where the keyword
    argument is [PIPE]. *)
Record Process := mkProcess {
  proc_stdout : option Stream;
  proc_stderr : option Stream;
  proc_polls : nat;
  proc_wait : PyResult Z;
}.

(** A [loading_pattern]: what its [n]-th call does with the writer it is
    handed, and whether it raises. *)
Definition Callback : Type := nat -> Writer -> list IO * option PyExc.

Inductive Event :=
| Launch (kwargs : gmap string PyVal)   (* the call of Popen *)
| Poll                                  (* process.poll() *)
| Pattern (io : list IO)                (* loading_pattern(stream_writer) *)
| LogDebug (line : text)                (* LOG.debug(decoded_line) *)
| Wait                                  (* process.wait() *)
| Says (io : IO)                        (* stream_writer.write / .flush *)
| Release.                              (* Popen.__exit__ *)

(** The state the function acts on: the caller's [command_args] object and
    what has happened so far, oldest first. *)
Record State := mkState {
  caller_args : gmap string PyVal;
  trace : list Event;
}.

(** ** A state and exception monad *)

Definition M (A : Type) : Type := State -> PyResult A * State.

#[global] Instance M_ret : MRet M := fun A a st => (Ok a, st).

#[global] Instance M_bind : MBind M := fun A B f m st =>
  match m st with
  | (Ok a, st') => f a st'
  | (Raise e, st') => (Raise e, st')
  end.

Definition raise {A} (e : PyExc) : M A := fun st => (Raise e, st).

Definition lift {A} (r : PyResult A) : M A := fun st => (r, st).

Definition emit (ev : Event) : M unit := fun st =>
  (Ok tt, mkState (caller_args st) (trace st ++ [ev])).

(** [command_args.get(key)]. *)
Definition dict_get (key : string) : M (option PyVal) := fun st =>
  (Ok (caller_args st !! key), st).

(** [command_args[key] = v]. *)
Definition dict_set (key : string) (v : PyVal) : M unit := fun st =>
  (Ok tt, mkState (<[key := v]> (caller_args st)) (trace st)).

(** [try: body / except classes as e: handler]. *)
Definition try_except {A} (body : M A) (catches : PyExc -> bool)
    (handler : PyExc -> M A) : M A := fun st =>
  match body st with
  | (Raise e, st') => if catches e then handler e st' else (Raise e, st')
  | done => done
  end.

(** [with ctx as r: body]: [leave r] runs however [body] ends, and the
    outcome of [body] stands unless [leave] itself raises. *)
Definition with_context {R A} (ctx : M R) (leave : R -> M unit)
    (body : R -> M A) : M A := fun st =>
  match ctx st with
  | (Raise e, st1) => (Raise e, st1)
  | (Ok r, st1) =>
    let '(outcome, st2) := body r st1 in
    match leave r st2 with
    | (Ok _, st3) => (outcome, st3)
    | (Raise e, st3) => (Raise e, st3)
    end
  end.

(** ** The functions of the module *)

Section SubprocessUtils.
Context `{PythonRuntime}.

(** [default_loading_pattern(stream_writer, loading_pattern_rate)]:
    [time.sleep] raises [ValueError] for a negative length, after the
    write and the flush. *)
Definition default_loading_pattern (stream_writer : option Writer)
    (loading_pattern_rate : Q) : list IO * option PyExc :=
  let stream_writer := default StderrWriter stream_writer in
  if Qle_bool 0 loading_pattern_rate then
    ([Write stream_writer (txt "."); Flush stream_writer;
      Sleep loading_pattern_rate], None)
  else
    ([Write stream_writer (txt "."); Flush stream_writer],
     Some (mkExc ValueError (txt "sleep length must be non-negative"))).

(** The default value of the [loading_pattern] parameter. *)
Definition default_pattern : Callback :=
  fun _ w => default_loading_pattern (Some w) (1 # 2).

Definition _check_and_process_bytes (check_value : AnyStr) : PyResult text :=
  match check_value with
  | PyBytes b =>
    match utf8_decode b with
    | Some s => Ok (strip s)
    | None => Raise (mkExc UnicodeDecodeError (decode_error_text b))
    end
  | PyStr s => Ok s
  end.

Definition _check_and_convert_stream_to_string (stream : option Stream)
    : PyResult text :=
  match stream with
  | Some stream =>
    let byte_stream := stream_read stream in
    _check_and_process_bytes byte_stream
  | None => Ok []
  end.

(** The [Popen] object of a started child: [process.stdout] and
    [process.stderr] are pipes where the keyword argument is [PIPE] and
    [None] otherwise. *)
Definition attach (kwargs : gmap string PyVal) (child : Child) : Process :=
  {| proc_stdout :=
       if is_PIPE (kwargs !! "stdout") then Some (child_stdout child)
       else None;
     proc_stderr :=
       if is_PIPE (kwargs !! "stderr") then Some (child_stderr child)
       else None;
     proc_polls := child_polls child;
     proc_wait := child_wait child |}.

(** [Popen], called with the entries of [command_args] as its keyword
    arguments. *)
Definition Popen (os : OS) : M Process := fun st =>
  let kwargs := caller_args st in
  let st' := mkState kwargs (trace st ++ [Launch kwargs]) in
  match os kwargs with
  | Raise e => (Raise e, st')
  | Ok child => (Ok (attach kwargs child), st')
  end.

(** One call [loading_pattern(stream_writer)]. *)
Definition call_pattern (loading_pattern : Callback) (nth : nat)
    (stream_writer : Writer) : M unit :=
  let '(io, raised) := loading_pattern nth stream_writer in
  emit (Pattern io) ;;
  match raised with
  | Some e => raise e
  | None => mret tt
  end.

(** [while process.poll() is None: loading_pattern(stream_writer)], with
    [pending] polls still to answer [None]. *)
Fixpoint indicator_loop (loading_pattern : Callback) (stream_writer : Writer)
    (pending nth : nat) : M unit :=
  emit Poll ;;
  match pending with
  | O => mret tt
  | S pending' =>
    call_pattern loading_pattern nth stream_writer ;;
    indicator_loop loading_pattern stream_writer pending' (S nth)
  end.

(** [for line in process.stdout: ...], giving [process_output]. *)
Fixpoint stream_loop (lines : list AnyStr) (process_output : text) : M text :=
  match lines with
  | [] => mret process_output
  | line :: rest =>
    decoded_line ← lift (_check_and_process_bytes line);
    emit (LogDebug decoded_line) ;;
    stream_loop rest (process_output ++ decoded_line)
  end.

(** The f-string of the non-zero exit. *)
Definition exit_message (args : PyVal) (returncode : Z) (process_stderr : text)
    : text :=
  txt "The process " ++ py_str args ++ txt " returned a non-zero exit code "
  ++ decimal returncode ++ txt ". " ++ process_stderr.

(** The f-string of the [except] clause. *)
Definition failure_message (args : PyVal) (e : PyExc) : text :=
  txt "Subprocess execution failed " ++ py_str args ++ txt ". " ++ exc_text e.

(** [raise LoadingPatternError(ex)]. *)
Definition raise_LoadingPatternError {A} (ex : text) : M A :=
  e ← lift (new_LoadingPatternError ex); raise e.

(** Lines 79 to 88, the observation of the child: the indicator loop
    when the level is INFO or above, the streaming of [process.stdout]
    otherwise.  It gives [process_output] and what is left to read of
    [process.stdout]. *)
Definition observe (log_level : Z) (loading_pattern : Callback)
    (stream_writer : Writer) (process : Process) (process_output : text)
    : M (text * option Stream) :=
  if (INFO <=? log_level)%Z then
    indicator_loop loading_pattern stream_writer (proc_polls process) 0 ;;
    mret (process_output, proc_stdout process)
  else match proc_stdout process with
  | Some out =>
    process_output ← stream_loop (stream_lines out) process_output;
    mret (process_output, Some (drained out))
  | None => mret (process_output, None)
  end.

(** Lines 79 to 104, the body of the [with] statement. *)
Definition supervise (log_level : Z) (loading_pattern : Callback)
    (stream_writer : Writer) (process_output : text) (process : Process)
    : M text :=
  '(process_output, stdout_left) ←
    observe log_level loading_pattern stream_writer process process_output;
  emit Wait ;;
  return_code ← lift (proc_wait process);
  emit (Says (Write stream_writer linesep)) ;;
  emit (Says (Flush stream_writer)) ;;
  process_output ←
    (if bool_decide (process_output = [])
     then lift (_check_and_convert_stream_to_string stdout_left)
     else mret process_output);
  process_stderr ←
    lift (_check_and_convert_stream_to_string (proc_stderr process));
  if negb (return_code =? 0)%Z then
    args ← dict_get "args";
    raise_LoadingPatternError
      (exit_message (default (VList []) args) return_code process_stderr)
  else mret process_output.

(** Lines 106 and 107, the [except (OSError, ValueError) as e] clause. *)
Definition caught (e : PyExc) : bool :=
  isinstance e OSError || isinstance e ValueError.

Definition wrap_failure (e : PyExc) : M text :=
  args ← dict_get "args";
  raise_LoadingPatternError (failure_message (default (VList []) args) e).

Definition invoke_subprocess_with_loading_pattern (os : OS) (log_level : Z)
    (loading_pattern : Callback) (stream_writer : option Writer) : M text :=
  let stream_writer := default StderrWriter stream_writer in
  let process_output : text := [] in
  stdout ← dict_get "stdout";
  (if negb (from_option truthy false stdout)
   then dict_set "stdout" PIPE else mret tt) ;;
  try_except
    (with_context (Popen os) (fun _ => emit Release)
       (supervise log_level loading_pattern stream_writer process_output))
    caught wrap_failure.

(** A call with the caller's dictionary [command_args]: the outcome, the
    dictionary afterwards and the trace. *)
Definition run (os : OS) (log_level : Z) (command_args : gmap string PyVal)
    (loading_pattern : Callback) (stream_writer : option Writer)
    : PyResult text * State :=
  invoke_subprocess_with_loading_pattern os log_level loading_pattern
    stream_writer (mkState command_args []).
End SubprocessUtils.


(** A runtime to evaluate examples with: a POSIX line separator, the
    [repr] of text that has no quote, backslash or non-printing character,
    and the text of the decoding error of the one input the examples fail
    to decode, the single byte 0xFF.  No example reaches a replacement
    field with an attribute, an index, a conversion or a format spec. *)
Definition plain_runtime : PythonRuntime := {|
  repr_text s := txt "'" ++ s ++ txt "'";
  decode_error_text _ :=
    txt "'utf-8' codec can't decode byte 0xff in position 0: invalid start byte";
  format_other_field _ _ _ ex := Ok ex;
  linesep := txt (String "010" EmptyString);
|}.

(** A line feed, and ASCII literals that end with one. *)
Definition LF : string := String "010" EmptyString.

(** ** Vocabulary of the statements *)

Definition starts_with_space (s : text) : bool :=
  match s with
  | c :: _ => isspace c
  | [] => false
  end.

Definition ends_with_space (s : text) : bool :=
  match last s with
  | Some c => isspace c
  | None => false
  end.

(** Text without a brace. *)
Definition plain (s : text) : bool :=
  forallb (fun c => negb ((c =? chr "{") || (c =? chr "}"))) s.

(** [appends p m]: whatever its outcome, [m] leaves the caller's dictionary
    alone and only adds events that satisfy [p] to the trace. *)
Definition appends {A} (p : Event -> bool) (m : M A) : Prop :=
  forall st, exists evs,
    (m st).2 = mkState (caller_args st) (trace st ++ evs)
    /\ forallb p evs = true.

(** The events of the observation loops. *)
Definition looping (ev : Event) : bool :=
  match ev with
  | Poll | Pattern _ | LogDebug _ => true
  | _ => false
  end.

Definition is_release (ev : Event) : bool :=
  match ev with
  | Release => true
  | _ => false
  end.

Definition is_launch (ev : Event) : bool :=
  match ev with
  | Launch _ => true
  | _ => false
  end.

(** How many times [Popen] was called. *)
Definition launches (tr : list Event) : nat := length (filter is_launch tr).

(** How many times the process handle was released. *)
Definition releases (tr : list Event) : nat := length (filter is_release tr).

(** What the function itself wrote to and asked of its stream writer. *)
Fixpoint says (tr : list Event) : list IO :=
  match tr with
  | Says io :: rest => io :: says rest
  | _ :: rest => says rest
  | [] => []
  end.

(** The class of the exception a call ended with, if it did. *)
Definition raised_class {A} (r : PyResult A) : option ExcClass :=
  match r with
  | Raise e => Some (exc_class e)
  | Ok _ => None
  end.

(** The dictionary after lines 71 to 74. *)
Definition effective_args (command_args : gmap string PyVal)
    : gmap string PyVal :=
  if from_option truthy false (command_args !! "stdout") then command_args
  else <["stdout" := PIPE]> command_args.

(** A system that behaves as [os] does, but whose children write [written]
    to their standard error. *)
Definition with_stderr (written : Stream) (os : OS) : OS := fun kwargs =>
  match os kwargs with
  | Ok child =>
    Ok (mkChild (child_polls child) (child_stdout child) written
          (child_wait child))
  | Raise e => Raise e
  end.

(** A system that behaves as [os] does, but whose children write [written]
    to their standard output. *)
Definition with_stdout (written : Stream) (os : OS) : OS := fun kwargs =>
  match os kwargs with
  | Ok child =>
    Ok (mkChild (child_polls child) written (child_stderr child)
          (child_wait child))
  | Raise e => Raise e
  end.

Definition is_poll (ev : Event) : bool :=
  match ev with
  | Poll => true
  | _ => false
  end.

Definition is_debug (ev : Event) : bool :=
  match ev with
  | LogDebug _ => true
  | _ => false
  end.

Definition is_indicator (ev : Event) : bool :=
  match ev with
  | Poll | Pattern _ => true
  | _ => false
  end.

(** How many times [process.poll()] was called. *)
Definition polls (tr : list Event) : nat := length (filter is_poll tr).

(** The polls and the calls of the loading pattern, in the order in which
    they happened. *)
Fixpoint polls_and_patterns (tr : list Event) : list Event :=
  match tr with
  | Poll :: rest => Poll :: polls_and_patterns rest
  | Pattern io :: rest => Pattern io :: polls_and_patterns rest
  | _ :: rest => polls_and_patterns rest
  | [] => []
  end.

(** What each call of the loading pattern did, in order. *)
Fixpoint patterns (tr : list Event) : list (list IO) :=
  match tr with
  | Pattern io :: rest => io :: patterns rest
  | _ :: rest => patterns rest
  | [] => []
  end.

(** The lines handed to [LOG.debug], in order. *)
Fixpoint debug_lines (tr : list Event) : list text :=
  match tr with
  | LogDebug line :: rest => line :: debug_lines rest
  | _ :: rest => debug_lines rest
  | [] => []
  end.

Definition writer_eqb (a b : Writer) : bool :=
  match a, b with
  | GivenWriter i, GivenWriter j => Nat.eqb i j
  | StderrWriter, StderrWriter => true
  | _, _ => false
  end.

(** The text one operation writes to the writer [w]. *)
Definition io_text (w : Writer) (io : IO) : text :=
  match io with
  | Write w' s => if writer_eqb w w' then s else []
  | _ => []
  end.

(** All the text the writer [w] received during a call, from the loading
    pattern and from the function itself, in order. *)
Fixpoint written (w : Writer) (tr : list Event) : text :=
  match tr with
  | Pattern io :: rest => concat (io_text w <$> io) ++ written w rest
  | Says io :: rest => io_text w io ++ written w rest
  | _ :: rest => written w rest
  | [] => []
  end.

(** The events of an indicator loop in which no call of the pattern
    raises: [pending] polls answer [None], and the calls of the pattern
    are numbered from [nth]. *)
Fixpoint indicator_events (lp : Callback) (w : Writer) (pending nth : nat)
    : list Event :=
  Poll ::
  match pending with
  | O => []
  | S pending' =>
    Pattern (lp nth w).1 :: indicator_events lp w pending' (S nth)
  end.

(** Text with each brace doubled, the way [str.format] wants a literal
    brace written. *)
Fixpoint escape (s : text) : text :=
  match s with
  | c :: rest =>
    if (c =? chr "{") || (c =? chr "}") then c :: c :: escape rest
    else c :: escape rest
  | [] => []
  end.

(** A Unicode scalar value: a code point that is not a surrogate. *)
Definition scalar (c : N) : bool :=
  (c <? 0xD800) || ((0xE000 <=? c) && (c <? 0x110000)).

Section Projections.
Context `{PythonRuntime}.

(** Lines 90 to 104 as a function of what the observation gave. *)
Definition conclude (args : option PyVal) (process : Process)
    (process_output : text) (stdout_left : option Stream) : PyResult text :=
  match proc_wait process with
  | Raise e => Raise e
  | Ok return_code =>
    match (if bool_decide (process_output = [])
           then _check_and_convert_stream_to_string stdout_left
           else Ok process_output) with
    | Raise e => Raise e
    | Ok process_output =>
      match _check_and_convert_stream_to_string (proc_stderr process) with
      | Raise e => Raise e
      | Ok process_stderr =>
        if negb (return_code =? 0)%Z then
          match new_LoadingPatternError
                  (exit_message (default (VList []) args) return_code
                     process_stderr) with
          | Ok e | Raise e => Raise e
          end
        else Ok process_output
      end
    end
  end.

(** The [except] clause as a function of the outcome of the [with]
    statement. *)
Definition rethrow (args : option PyVal) (outcome : PyResult text)
    : PyResult text :=
  match outcome with
  | Ok out => Ok out
  | Raise e =>
    if caught e then
      match new_LoadingPatternError
              (failure_message (default (VList []) args) e) with
      | Ok e' | Raise e' => Raise e'
      end
    else Raise e
  end.

End Projections.

(** ** Inputs of the concrete calls *)

(** [logging.DEBUG]. *)
Definition DEBUG : Z := 10.

(** [command_args = {"args": ["echo", "  hi"]}]. *)
Definition echo_args : gmap string PyVal :=
  {[ "args" := VList [VStr (txt "echo"); VStr (txt "  hi")] ]}.

(** A child that is polled once before it exits with code 0, having
    written "  hi" and a line feed to its standard output. *)
Definition echo_child : Child :=
  mkChild 1 (BinaryIO [encode_ascii ("  hi" +:+ LF)]) (BinaryIO []) (Ok 0%Z).

Definition echo_os : OS := fun _ => Ok echo_child.

(** A child that prints the lines "a" and "b" through a pipe of bytes. *)
Definition lines_as_bytes : OS := fun _ =>
  Ok (mkChild 0 (BinaryIO [encode_ascii ("a" +:+ LF); encode_ascii ("b" +:+ LF)])
        (BinaryIO []) (Ok 0%Z)).

(** [command_args = {"args": ["echo", "  hi"], "stdout": 0}]: the caller
    asks for file descriptor 0. *)
Definition fd0_args : gmap string PyVal := <["stdout" := VInt 0]> echo_args.

(** A child whose only line is the byte 0xFF, and a child whose exit the
    system fails to wait for. *)
Definition invalid_line : OS := fun _ =>
  Ok (mkChild 0 (BinaryIO [[xff]]) (BinaryIO []) (Ok 0%Z)).

Definition failing_wait : OS := fun _ =>
  Ok (mkChild 1 (BinaryIO []) (BinaryIO [])
        (Raise (mkExc OSError (txt "[WinError 6] The handle is invalid")))).

(** [command_args = {"args": ["tool"], "stderr": PIPE}], and a child that
    writes "error: {}" to its standard error and exits with code 1. *)
Definition piped_args : gmap string PyVal :=
  {[ "args" := VList [VStr (txt "tool")]; "stderr" := PIPE ]}.

Definition braces_on_stderr : OS := fun _ =>
  Ok (mkChild 1 (BinaryIO []) (BinaryIO [encode_ascii "error: {}"]) (Ok 1%Z)).

Definition words_on_stderr : OS := fun _ =>
  Ok (mkChild 1 (BinaryIO []) (BinaryIO [encode_ascii "error: none"]) (Ok 1%Z)).

(** [command_args = {"args": ["missing-tool", "--vars", "{}"]}], and a
    system that has no such executable. *)
Definition missing_args : gmap string PyVal :=
  {[ "args" := VList [VStr (txt "missing-tool"); VStr (txt "--vars");
                      VStr (txt "{}")] ]}.

Definition plain_missing_args : gmap string PyVal :=
  {[ "args" := VList [VStr (txt "missing-tool")] ]}.

Definition no_such_file : OS := fun _ =>
  Raise (mkExc FileNotFoundError
           (txt "[Errno 2] No such file or directory: 'missing-tool'")).

(** [command_args = {"args": ["echo", "  hi"], "stdout": f}] for an open
    file [f]. *)
Definition file_args : gmap string PyVal :=
  <["stdout" := VObject (txt "<_io.BufferedWriter name='out.log'>") true]>
    echo_args.

(** A child that is polled three times before it has exited, and a
    loading pattern whose second call raises [TypeError]. *)
Definition slow_child : Child :=
  mkChild 3 (BinaryIO []) (BinaryIO []) (Ok 0%Z).

Definition slow_os : OS := fun _ => Ok slow_child.

Definition interrupted : PyExc :=
  mkExc TypeError (txt "'NoneType' object is not callable").

Definition failing_pattern : Callback := fun n w =>
  ([Write w (txt ".")], if Nat.eqb n 1%nat then Some interrupted else None).

(** A child whose second line is the byte 0xFF. *)
Definition second_line_invalid_child : Child :=
  mkChild 0 (BinaryIO [encode_ascii ("ok" +:+ LF); [xff]]) (BinaryIO [])
    (Ok 0%Z).

Definition second_line_invalid : OS := fun _ => Ok second_line_invalid_child.

(** A system whose pipes are text when the caller asks for [text=True] and
    bytes otherwise, with a child that prints the lines "a" and "b". *)
Definition lines_by_mode : OS := fun kwargs =>
  if from_option truthy false (kwargs !! "text")
  then Ok (mkChild 0 (TextIO [txt ("a" +:+ LF); txt ("b" +:+ LF)])
             (TextIO []) (Ok 0%Z))
  else Ok (mkChild 0
             (BinaryIO [encode_ascii ("a" +:+ LF); encode_ascii ("b" +:+ LF)])
             (BinaryIO []) (Ok 0%Z)).

(** [command_args = {"args": ["echo", "  hi"], "text": True}]. *)
Definition text_args : gmap string PyVal := <["text" := VBool true]> echo_args.

(** A child that exits with code 0, having written "hi" to its standard
    output and the byte 0xFF to its standard error. *)
Definition garbled_stderr_child : Child :=
  mkChild 1 (BinaryIO [encode_ascii ("hi" +:+ LF)]) (BinaryIO [[xff]]) (Ok 0%Z).

Definition garbled_stderr : OS := fun _ => Ok garbled_stderr_child.

(** [Popen] called without ["args"]. *)
Definition no_args_given : PyExc :=
  mkExc TypeError
    (txt "__init__() missing 1 required positional argument: 'args'").

Definition refuses_arguments : OS := fun _ => Raise no_args_given.

(** ** Properties of [strip] *)

Lemma lstrip_spec (s : text) :
  exists pre, s = pre ++ lstrip s /\ forallb isspace pre = true
              /\ starts_with_space (lstrip s) = false.
Proof.
  induction s as [|c r (pre & E & Hpre & Hhead)]; simpl.
  - exists []. auto.
  - destruct (isspace c) eqn:Hc.
    + exists (c :: pre). simpl. rewrite Hc, Hpre.
      split; [f_equal; exact E | auto].
    + exists []. simpl. rewrite Hc. auto.
Qed.

Lemma rstrip_spec (s : text) :
  exists post, s = rstrip s ++ post /\ forallb isspace post = true
               /\ ends_with_space (rstrip s) = false.
Proof.
  induction s as [|c r (post & E & Hpost & Hlast)]; simpl.
  - exists []. auto.
  - destruct (rstrip r) as [|x r'] eqn:Hr.
    + simpl in E. subst r. destruct (isspace c) eqn:Hc.
      * exists (c :: post). simpl. rewrite Hc, Hpost. auto.
      * exists post. unfold ends_with_space. simpl. auto.
    + exists post. split; [rewrite E at 1; reflexivity | split; [assumption|]].
      unfold ends_with_space in *. simpl in *. exact Hlast.
Qed.

Lemma rstrip_keeps_head (s : text) :
  starts_with_space s = false -> starts_with_space (rstrip s) = false.
Proof.
  destruct s as [|c r]; simpl; [reflexivity|]. intros Hc.
  destruct (rstrip r); [rewrite Hc|]; simpl; auto.
Qed.

(** [strip] removes a run of whitespace at each end and nothing else, and
    what is left neither begins nor ends with whitespace. *)
Lemma strip_spec (s : text) :
  exists pre post,
    s = pre ++ strip s ++ post
    /\ forallb isspace pre = true /\ forallb isspace post = true
    /\ starts_with_space (strip s) = false
    /\ ends_with_space (strip s) = false.
Proof.
  destruct (lstrip_spec s) as (pre & E1 & Hpre & Hhead).
  destruct (rstrip_spec (lstrip s)) as (post & E2 & Hpost & Hlast).
  exists pre, post. unfold strip.
  split; [rewrite <- E2; exact E1|].
  repeat split; auto using rstrip_keeps_head.
Qed.

Section Helper.
Context `{PythonRuntime}.

(** C3, as the code has it: [_check_and_process_bytes] gives, for bytes
    that are valid UTF-8, the decoded text with the whitespace at both
    ends removed (the leading whitespace too), raises
    [UnicodeDecodeError] for bytes that are not, and gives back text
    as it is, without stripping it.  The bytes of "hello \n" give
    "hello" and the text "hello" gives "hello". *)
Theorem check_and_process_bytes_spec (check_value : AnyStr) :
  match check_value with
  | PyBytes b =>
    match utf8_decode b with
    | Some s =>
      exists pre post,
        _check_and_process_bytes check_value = Ok (strip s)
        /\ s = pre ++ strip s ++ post
        /\ forallb isspace pre = true /\ forallb isspace post = true
        /\ starts_with_space (strip s) = false
        /\ ends_with_space (strip s) = false
    | None =>
      _check_and_process_bytes check_value
      = Raise (mkExc UnicodeDecodeError (decode_error_text b))
    end
  | PyStr s => _check_and_process_bytes check_value = Ok s
  end
  /\ _check_and_process_bytes (PyBytes (encode_ascii ("hello " +:+ LF)))
     = Ok (txt "hello")
  /\ _check_and_process_bytes (PyStr (txt "hello")) = Ok (txt "hello").
Proof.
  split; [|split; reflexivity].
  destruct check_value as [b|s]; simpl; [|reflexivity].
  destruct (utf8_decode b) as [s|] eqn:Hb; [|reflexivity].
  destruct (strip_spec s) as (pre & post & Hs).
  exists pre, post. split; [reflexivity | exact Hs].
Qed.
End Helper.

(** C3 as stated fails twice: bytes lose their leading whitespace as well,
    and text is not stripped at all. *)
Lemma check_and_process_bytes_not_trailing_only :
  @_check_and_process_bytes plain_runtime (PyBytes (encode_ascii "  hi"))
  = Ok (txt "hi")
  /\ rstrip (txt "  hi") = txt "  hi"
  /\ @_check_and_process_bytes plain_runtime (PyStr (txt "hi" ++ txt LF))
     = Ok (txt "hi" ++ txt LF)
  /\ strip (txt "hi" ++ txt LF) = txt "hi"
  /\ txt "hi" ++ txt LF <> txt "hi".
Proof. repeat split; try reflexivity. discriminate. Qed.

(** ** Reasoning about [M] computations *)

Lemma appends_silent {A} (p : Event -> bool) (m : M A) :
  (forall st, (m st).2 = st) -> appends p m.
Proof.
  intros Hm st. exists []. rewrite Hm, app_nil_r. destruct st; auto.
Qed.

Lemma appends_ret {A} p (a : A) : appends p (mret a).
Proof. now apply appends_silent. Qed.

Lemma appends_raise {A} p (e : PyExc) : appends p (raise e : M A).
Proof. now apply appends_silent. Qed.

Lemma appends_lift {A} p (r : PyResult A) : appends p (lift r).
Proof. now apply appends_silent. Qed.

Lemma appends_dict_get p key : appends p (dict_get key).
Proof. now apply appends_silent. Qed.

Lemma appends_emit (p : Event -> bool) ev : p ev = true -> appends p (emit ev).
Proof. intros Hp st. exists [ev]. simpl. now rewrite Hp. Qed.

Lemma appends_bind {A B} p (m : M A) (f : A -> M B) :
  appends p m -> (forall a, appends p (f a)) -> appends p (m ≫= f).
Proof.
  intros Hm Hf st. unfold mbind, M_bind.
  destruct (Hm st) as (evs & E & Hp).
  destruct (m st) as [[a|e] st1]; simpl in E; subst st1.
  - destruct (Hf a (mkState (caller_args st) (trace st ++ evs)))
      as (evs' & E' & Hp').
    exists (evs ++ evs'). rewrite E'. simpl.
    now rewrite app_assoc, forallb_app, Hp, Hp'.
  - exists evs. auto.
Qed.

(** A computation that appends nothing leaves the state as it was. *)
Lemma appends_nothing {A} (m : M A) st :
  appends (fun _ => false) m -> (m st).2 = st.
Proof.
  intros Hm. destruct (Hm st) as ([|ev evs] & E & Hp); [|discriminate].
  rewrite E, app_nil_r. now destruct st.
Qed.

Section Loops.
Context `{PythonRuntime}.

Lemma appends_raise_LoadingPatternError {A} p ex :
  appends p (raise_LoadingPatternError ex : M A).
Proof.
  apply appends_silent. intros st.
  unfold raise_LoadingPatternError, mbind, M_bind, lift.
  now destruct (new_LoadingPatternError ex).
Qed.

Lemma appends_wrap_failure p e : appends p (wrap_failure e).
Proof.
  apply appends_bind; [apply appends_dict_get|].
  intros. apply appends_raise_LoadingPatternError.
Qed.

Lemma appends_call_pattern lp nth w : appends looping (call_pattern lp nth w).
Proof.
  unfold call_pattern. destruct (lp nth w) as [io [e|]];
    (apply appends_bind; [now apply appends_emit|]); intros [].
  - apply appends_raise.
  - apply appends_ret.
Qed.

Lemma appends_indicator_loop lp w pending nth :
  appends looping (indicator_loop lp w pending nth).
Proof.
  revert nth. induction pending as [|pending IH]; intros nth; simpl;
    (apply appends_bind; [now apply appends_emit|]); intros [].
  - apply appends_ret.
  - apply appends_bind; [apply appends_call_pattern | intros; apply IH].
Qed.

Lemma appends_stream_loop lines process_output :
  appends looping (stream_loop lines process_output).
Proof.
  revert process_output.
  induction lines as [|line rest IH]; intros process_output; simpl.
  - apply appends_ret.
  - apply appends_bind; [apply appends_lift|]. intros decoded_line.
    apply appends_bind; [now apply appends_emit | intros; apply IH].
Qed.

Lemma appends_observe level lp w process process_output :
  appends looping (observe level lp w process process_output).
Proof.
  unfold observe. destruct (INFO <=? level)%Z.
  - apply appends_bind; [apply appends_indicator_loop|].
    intros. apply appends_ret.
  - destruct (proc_stdout process); [|apply appends_ret].
    apply appends_bind; [apply appends_stream_loop|].
    intros. apply appends_ret.
Qed.

(** What is left of [supervise] once the observation is over: it adds no
    event after the flush. *)
Lemma supervise_trace level lp w process st :
  exists pre,
    forallb looping pre = true
    /\ (((supervise level lp w [] process st).2
         = mkState (caller_args st) (trace st ++ pre)
         /\ exists e, (supervise level lp w [] process st).1 = Raise e)
        \/ (supervise level lp w [] process st).2
           = mkState (caller_args st)
               (trace st ++ pre ++ Wait ::
                  match proc_wait process with
                  | Ok _ => [Says (Write w linesep); Says (Flush w)]
                  | Raise _ => []
                  end)).
Proof.
  destruct (appends_observe level lp w process [] st) as (pre & E & Hpre).
  exists pre. split; [exact Hpre|].
  unfold supervise, mbind, M_bind.
  destruct (observe level lp w process [] st) as [[[out left]|e] st1];
    simpl in E; subst st1.
  - right. unfold emit, lift. simpl.
    destruct (proc_wait process) as [rc|e]; simpl;
      [|now rewrite <- app_assoc].
    rewrite <- !app_assoc. simpl.
    destruct (bool_decide (out = [])); unfold mret, M_ret; simpl;
      [destruct (_check_and_convert_stream_to_string left); simpl;
         [|reflexivity]|];
      (destruct (_check_and_convert_stream_to_string (proc_stderr process));
         simpl; [|reflexivity]);
      (destruct (negb (rc =? 0)%Z); [|reflexivity]);
      apply appends_nothing, appends_raise_LoadingPatternError.
  - left. split; [reflexivity | eauto].
Qed.
End Loops.

(** ** The shape of a whole call *)

Section Shape.
Context `{PythonRuntime}.

Lemma run_unfold os level command_args lp sw :
  run os level command_args lp sw
  = try_except
      (with_context (Popen os) (fun _ => emit Release)
         (supervise level lp (default StderrWriter sw) []))
      caught wrap_failure (mkState (effective_args command_args) []).
Proof.
  unfold run, invoke_subprocess_with_loading_pattern, effective_args.
  unfold mbind, M_bind, dict_get. simpl.
  now destruct (from_option truthy false (command_args !! "stdout")).
Qed.

(** The trace of a call: the launch, the events of the observation, then,
    when the observation ended without an exception, the wait and (when
    the wait gave an exit code) the line separator and the flush, and at
    last the release.  Only the launch is there when [Popen] raised. *)
Lemma run_shape os level command_args lp sw :
  let kwargs := effective_args command_args in
  let w := default StderrWriter sw in
  let final := (run os level command_args lp sw).2 in
  caller_args final = kwargs
  /\ match os kwargs with
     | Raise _ => trace final = [Launch kwargs]
     | Ok child =>
       exists pre,
         forallb looping pre = true
         /\ (trace final = Launch kwargs :: pre ++ [Release]
             \/ trace final
                = Launch kwargs :: pre ++ Wait ::
                    match child_wait child with
                    | Ok _ => [Says (Write w linesep); Says (Flush w)]
                    | Raise _ => []
                    end ++ [Release])
     end.
Proof.
  intros kwargs w final. subst final. rewrite run_unfold. fold kwargs w.
  unfold try_except, with_context, Popen. simpl.
  destruct (os kwargs) as [child|e]; simpl.
  - set (process := attach kwargs child).
    set (st1 := mkState kwargs [Launch kwargs]).
    destruct (supervise_trace level lp w process st1)
      as (pre & Hpre & Hshape).
    assert (Hwait : proc_wait process = child_wait child) by reflexivity.
    rewrite Hwait in Hshape. clear Hwait.
    destruct (supervise level lp w [] process st1) as [outcome st2].
    simpl in Hshape.
    destruct outcome as [a|e]; simpl;
      try (destruct (caught e); simpl;
           [rewrite (appends_nothing (wrap_failure e))
              by apply appends_wrap_failure|]);
      simpl; (split; [now destruct Hshape as [[-> _]| ->]|]);
      exists pre; (split; [exact Hpre|]);
      destruct Hshape as [[-> _]| ->]; simpl;
      rewrite <- ?app_assoc; simpl; auto.
  - destruct (caught e); simpl; [|auto].
    rewrite (appends_nothing (wrap_failure e)) by apply appends_wrap_failure.
    auto.
Qed.
End Shape.

(** ** The launch, the caller's dictionary and the release *)

Lemma looping_no_release pre :
  forallb looping pre = true -> filter is_release pre = [].
Proof.
  induction pre as [|ev pre IH]; [reflexivity|].
  intros [Hev Hpre]%andb_prop. rewrite filter_cons, (IH Hpre).
  now destruct ev.
Qed.

Lemma looping_no_launch pre :
  forallb looping pre = true -> filter is_launch pre = [].
Proof.
  induction pre as [|ev pre IH]; [reflexivity|].
  intros [Hev Hpre]%andb_prop. rewrite filter_cons, (IH Hpre).
  now destruct ev.
Qed.

Lemma looping_no_says pre : forallb looping pre = true -> says pre = [].
Proof.
  induction pre as [|ev pre IH]; [reflexivity|].
  intros [Hev Hpre]%andb_prop. destruct ev; simpl; auto; discriminate.
Qed.

Lemma looping_no_wait pre : forallb looping pre = true -> ~ In Wait pre.
Proof.
  intros Hpre Hin. rewrite forallb_forall in Hpre.
  now specialize (Hpre Wait Hin).
Qed.

Lemma last_of_trace {A} (x y : A) pre mid :
  last (x :: pre ++ mid ++ [y]) = Some y.
Proof. rewrite app_assoc, app_comm_cons. apply last_snoc. Qed.

Lemma says_app tr1 tr2 : says (tr1 ++ tr2) = says tr1 ++ says tr2.
Proof.
  induction tr1 as [|ev tr1 IH]; [reflexivity|].
  destruct ev; simpl; now rewrite ?IH.
Qed.

Section Claims.
Context `{PythonRuntime}.

(** [Popen] is called once, first of all, with the caller's dictionary as
    lines 71 to 74 leave it: the [stdout] entry is [PIPE] when the
    caller's entry is absent or false in a condition, and is the caller's
    own when it is true in a condition. *)
Theorem launch_arguments os level command_args lp sw :
  head (trace (run os level command_args lp sw).2)
  = Some (Launch (if from_option truthy false (command_args !! "stdout")
                  then command_args
                  else <["stdout" := PIPE]> command_args))
  /\ launches (trace (run os level command_args lp sw).2) = 1%nat.
Proof.
  destruct (run_shape os level command_args lp sw) as [_ Hshape].
  fold (effective_args command_args).
  destruct (os (effective_args command_args)) as [child|e].
  - destruct Hshape as (pre & Hpre & [-> | ->]);
      (split; [reflexivity|]); unfold launches;
      rewrite filter_cons, filter_app, (looping_no_launch _ Hpre);
      [reflexivity | now destruct (child_wait child)].
  - now rewrite Hshape.
Qed.

(** C8: a call releases the process handle exactly once when [Popen] gave
    one, however the call ends, and the release is the last thing that
    happens; when [Popen] raised there is no handle and no release. *)
Theorem handle_released_once os level command_args lp sw :
  let tr := trace (run os level command_args lp sw).2 in
  match os (effective_args command_args) with
  | Ok _ => releases tr = 1%nat /\ last tr = Some Release
  | Raise _ => releases tr = 0%nat
  end.
Proof.
  intros tr. subst tr.
  destruct (run_shape os level command_args lp sw) as [_ Hshape].
  destruct (os (effective_args command_args)) as [child|e].
  - destruct Hshape as (pre & Hpre & [-> | ->]); unfold releases.
    + rewrite filter_cons, filter_app, (looping_no_release _ Hpre).
      split; [reflexivity | apply (last_of_trace _ _ pre [])].
    + rewrite filter_cons, filter_app, (looping_no_release _ Hpre).
      split; [now destruct (child_wait child)|].
      apply (last_of_trace _ _ pre (Wait :: _)).
  - now rewrite Hshape.
Qed.
End Claims.

Lemma effective_args_other command_args key :
  key <> "stdout" -> effective_args command_args !! key = command_args !! key.
Proof.
  intros Hkey. unfold effective_args.
  destruct (from_option truthy false (command_args !! "stdout"));
    [reflexivity | now apply lookup_insert_ne].
Qed.

Section Effects.
Context `{PythonRuntime}.

(** C9: when the caller's [stdout] entry is absent or false in a
    condition, the call leaves the caller's dictionary with
    [stdout = PIPE], so it differs from what the caller passed, and
    every other entry is as it was; this holds however the call ends. *)
Theorem stdout_default_mutates_caller os level command_args lp sw :
  from_option truthy false (command_args !! "stdout") = false ->
  let after := caller_args (run os level command_args lp sw).2 in
  after = <["stdout" := PIPE]> command_args
  /\ after <> command_args
  /\ forall key, key <> "stdout" -> after !! key = command_args !! key.
Proof.
  intros Hfalsy after. subst after.
  destruct (run_shape os level command_args lp sw) as [-> _].
  unfold effective_args. rewrite Hfalsy.
  split; [reflexivity|]. split.
  - intros Heq. apply (f_equal (fun m => m !! "stdout")) in Heq.
    rewrite lookup_insert_eq in Heq. rewrite <- Heq in Hfalsy.
    discriminate.
  - intros key Hkey. now apply lookup_insert_ne.
Qed.

(** C7, as the code has it: when [Popen] gave a process, the call got as
    far as [process.wait()] and the wait gave an exit code (zero or
    not), the function wrote the line separator to the stream writer
    once and flushed it, right after the wait, and did nothing else with
    the writer; whatever is raised afterwards is raised after that. *)
Theorem line_separator_after_wait os level command_args lp sw child rc :
  os (effective_args command_args) = Ok child ->
  child_wait child = Ok rc ->
  In Wait (trace (run os level command_args lp sw).2) ->
  let w := default StderrWriter sw in
  says (trace (run os level command_args lp sw).2)
  = [Write w linesep; Flush w]
  /\ exists pre,
       forallb looping pre = true
       /\ trace (run os level command_args lp sw).2
          = Launch (effective_args command_args) :: pre
            ++ [Wait; Says (Write w linesep); Says (Flush w); Release].
Proof.
  intros Hos Hwait Hin w.
  destruct (run_shape os level command_args lp sw) as [_ Hshape].
  rewrite Hos, Hwait in Hshape. fold w in Hshape.
  destruct Hshape as (pre & Hpre & [Htr | Htr]); rewrite Htr in *.
  - exfalso. destruct Hin as [Hin|Hin]; [discriminate|].
    apply in_app_or in Hin as [Hin|[Hin|[]]]; [|discriminate].
    now apply (looping_no_wait pre).
  - split; [|now exists pre].
    change (Launch (effective_args command_args) :: pre ++ ?rest)
      with ([Launch (effective_args command_args)] ++ pre ++ rest).
    now rewrite !says_app, (looping_no_says pre).
Qed.

(** C10: when the caller's [stderr] entry is not [PIPE], [process.stderr]
    is [None], the standard error read is the empty string, and nothing
    the child writes to its standard error reaches the outcome of the
    call: the result, the message of the exception, the dictionary and
    the trace are the same whatever the child wrote there. *)
Theorem stderr_not_captured_without_pipe os level command_args lp sw :
  is_PIPE (command_args !! "stderr") = false ->
  (forall child,
     proc_stderr (attach (effective_args command_args) child) = None)
  /\ _check_and_convert_stream_to_string None = Ok []
  /\ forall written,
       run (with_stderr written os) level command_args lp sw
       = run os level command_args lp sw.
Proof.
  intros Hpipe.
  assert (Hkw : is_PIPE (effective_args command_args !! "stderr") = false)
    by now rewrite effective_args_other.
  split; [|split; [reflexivity|]].
  - intros child. unfold attach. simpl. now rewrite Hkw.
  - intros written. rewrite !run_unfold.
    unfold try_except, with_context, Popen, with_stderr. simpl.
    destruct (os (effective_args command_args)) as [child|e];
      [|reflexivity].
    unfold attach. simpl. now rewrite Hkw.
Qed.
End Effects.

(** ** The outcome of a call *)

Section Outcome.
Context `{PythonRuntime}.

Lemma raise_LoadingPatternError_outcome ex st :
  (raise_LoadingPatternError ex st : PyResult text * State).1
  = match new_LoadingPatternError ex with Ok e | Raise e => Raise e end.
Proof.
  unfold raise_LoadingPatternError, mbind, M_bind, lift.
  now destruct (new_LoadingPatternError ex).
Qed.

Lemma supervise_outcome level lp w process st :
  (supervise level lp w [] process st).1
  = match (observe level lp w process [] st).1 with
    | Ok (process_output, stdout_left) =>
      conclude (caller_args st !! "args") process process_output stdout_left
    | Raise e => Raise e
    end.
Proof.
  destruct (appends_observe level lp w process [] st) as (pre & E & _).
  unfold supervise, mbind, M_bind.
  destruct (observe level lp w process [] st) as [[[out left]|e] st1];
    simpl in E; subst st1; [|reflexivity].
  unfold conclude, emit, lift, dict_get. simpl.
  destruct (proc_wait process) as [rc|e]; simpl; [|reflexivity].
  destruct (bool_decide (out = [])); unfold mret, M_ret; simpl;
    [destruct (_check_and_convert_stream_to_string left); simpl;
       [|reflexivity]|];
    (destruct (_check_and_convert_stream_to_string (proc_stderr process));
       simpl; [|reflexivity]);
    (destruct (negb (rc =? 0)%Z); [|reflexivity]);
    apply raise_LoadingPatternError_outcome.
Qed.

(** The outcome of a call, without the monad. *)
Lemma run_outcome os level command_args lp sw :
  let kwargs := effective_args command_args in
  let w := default StderrWriter sw in
  (run os level command_args lp sw).1
  = rethrow (kwargs !! "args")
      match os kwargs with
      | Raise e => Raise e
      | Ok child =>
        (supervise level lp w [] (attach kwargs child)
           (mkState kwargs [Launch kwargs])).1
      end.
Proof.
  intros kwargs w. rewrite run_unfold. fold kwargs w.
  unfold try_except, with_context, Popen, rethrow. simpl.
  destruct (os kwargs) as [child|e]; simpl.
  - set (process := attach kwargs child).
    set (st1 := mkState kwargs [Launch kwargs]).
    destruct (supervise_trace level lp w process st1) as (pre & _ & Hst).
    destruct (supervise level lp w [] process st1) as [[out|e] st2];
      simpl in *; [reflexivity|].
    destruct (caught e); [|reflexivity].
    unfold wrap_failure, mbind, M_bind, dict_get. simpl.
    rewrite raise_LoadingPatternError_outcome.
    now destruct Hst as [[-> _]| ->].
  - destruct (caught e); [|reflexivity].
    unfold wrap_failure, mbind, M_bind, dict_get. simpl.
    now rewrite raise_LoadingPatternError_outcome.
Qed.

(** The indicator loop ends without an exception when no call of the
    pattern raises. *)
Lemma indicator_loop_quiet lp w pending nth st :
  (forall n, (n < pending)%nat -> (lp (nth + n)%nat w).2 = None) ->
  (indicator_loop lp w pending nth st).1 = Ok tt.
Proof.
  revert nth st. induction pending as [|pending IH]; intros nth st Hlp;
    simpl; unfold mbind, M_bind, emit; simpl; [reflexivity|].
  unfold call_pattern.
  pose proof (Hlp 0%nat ltac:(lia)) as H0. rewrite Nat.add_0_r in H0.
  destruct (lp nth w) as [io raised]. simpl in H0. subst raised.
  unfold mbind, M_bind, emit. simpl.
  apply IH. intros n Hn.
  replace (S nth + n)%nat with (nth + S n)%nat by lia.
  apply Hlp. lia.
Qed.

(** The streaming loop gives the lines, as the helper renders them, one
    after the other. *)
Lemma stream_loop_decoded lines decoded process_output st :
  Forall2 (fun line d => _check_and_process_bytes line = Ok d) lines decoded ->
  (stream_loop lines process_output st).1
  = Ok (process_output ++ concat decoded).
Proof.
  intros Hlines. revert process_output st.
  induction Hlines as [|line d lines decoded Hline _ IH];
    intros process_output st; simpl.
  - unfold mret, M_ret. simpl. now rewrite app_nil_r.
  - unfold mbind, M_bind, lift, emit. rewrite Hline. simpl.
    rewrite IH. now rewrite <- app_assoc.
Qed.
End Outcome.

(** ** What a successful call returns *)

Section Returns.
Context `{PythonRuntime}.

(** C1, as the code has it: at level INFO or above, when the caller left
    [stdout] to the default pipe, the loading pattern does not raise, the
    child exits with code 0 and the read of its standard error does not
    fail (it is not a pipe, or what it yields decodes), the call returns,
    for a pipe of bytes
    that decode to the text [T], [T] with the whitespace at both ends
    removed (the leading whitespace too), and for a pipe of text what
    the child wrote, as it is. *)
Theorem returns_stripped_stdout os level command_args lp sw child err :
  (INFO <= level)%Z ->
  from_option truthy false (command_args !! "stdout") = false ->
  os (<["stdout" := PIPE]> command_args) = Ok child ->
  (forall n, (n < child_polls child)%nat ->
             (lp n (default StderrWriter sw)).2 = None) ->
  child_wait child = Ok 0%Z ->
  _check_and_convert_stream_to_string
    (proc_stderr (attach (<["stdout" := PIPE]> command_args) child))
  = Ok err ->
  match child_stdout child with
  | BinaryIO raw =>
    forall T, utf8_decode (concat raw) = Some T ->
              (run os level command_args lp sw).1 = Ok (strip T)
  | TextIO lines => (run os level command_args lp sw).1 = Ok (concat lines)
  end.
Proof.
  intros Hlevel Hfalsy Hos Hlp Hwait Herr.
  rewrite run_outcome. unfold effective_args. rewrite Hfalsy, Hos.
  rewrite supervise_outcome. unfold observe.
  apply Z.leb_le in Hlevel. rewrite Hlevel.
  unfold mbind, M_bind.
  match goal with |- context [indicator_loop ?l ?w ?p ?n ?st] =>
    pose proof (indicator_loop_quiet l w p n st Hlp) as Hloop;
    destruct (indicator_loop l w p n st) as [r st1]
  end.
  simpl in Hloop. subst r. simpl.
  unfold conclude. simpl proc_wait. rewrite Hwait, Herr.
  rewrite bool_decide_eq_true_2 by reflexivity.
  simpl. rewrite lookup_insert_eq. simpl.
  destruct (child_stdout child) as [raw|lines]; simpl; [|reflexivity].
  intros T HT. now rewrite HT.
Qed.

(** In streaming mode the call returns the lines of the pipe, each as
    [_check_and_process_bytes] renders it, one after the other. *)
Lemma streaming_outcome os level command_args lp sw child err decoded :
  (level < INFO)%Z ->
  is_PIPE (effective_args command_args !! "stdout") = true ->
  os (effective_args command_args) = Ok child ->
  child_wait child = Ok 0%Z ->
  _check_and_convert_stream_to_string
    (proc_stderr (attach (effective_args command_args) child)) = Ok err ->
  Forall2 (fun line d => _check_and_process_bytes line = Ok d)
    (stream_lines (child_stdout child)) decoded ->
  (run os level command_args lp sw).1 = Ok (concat decoded).
Proof.
  intros Hlevel Hpipe Hos Hwait Herr Hlines.
  rewrite run_outcome, Hos, supervise_outcome. unfold observe.
  apply Z.leb_gt in Hlevel. rewrite Hlevel.
  unfold attach at 1. cbn [proc_stdout]. rewrite Hpipe.
  unfold mbind, M_bind.
  match goal with |- context [stream_loop ?ls ?po ?st] =>
    pose proof (stream_loop_decoded ls decoded po st Hlines) as Hloop;
    destruct (stream_loop ls po st) as [r st1]
  end.
  simpl in Hloop. subst r. simpl.
  unfold conclude. simpl proc_wait. rewrite Hwait, Herr.
  case_bool_decide as Hempty; simpl.
  - rewrite Hempty. now destruct (child_stdout child).
  - reflexivity.
Qed.

(** C6, as the code has it: below level INFO, with [stdout] a pipe, a
    child that exits with code 0 and a read of its standard error that
    does not fail (it is not a pipe, or what it yields decodes), the call
    returns, for a pipe of bytes,
    the lines decoded and stripped at both ends, one after the other,
    and for a pipe of text the lines as they are, not stripped, one
    after the other. *)
Theorem streaming_concatenates_lines os level command_args lp sw child err :
  (level < INFO)%Z ->
  is_PIPE (effective_args command_args !! "stdout") = true ->
  os (effective_args command_args) = Ok child ->
  child_wait child = Ok 0%Z ->
  _check_and_convert_stream_to_string
    (proc_stderr (attach (effective_args command_args) child)) = Ok err ->
  match child_stdout child with
  | BinaryIO raw =>
    forall texts,
      Forall2 (fun b t => utf8_decode b = Some t) raw texts ->
      (run os level command_args lp sw).1 = Ok (concat (strip <$> texts))
  | TextIO lines => (run os level command_args lp sw).1 = Ok (concat lines)
  end.
Proof.
  intros Hlevel Hpipe Hos Hwait Herr.
  destruct (child_stdout child) as [raw|lines] eqn:Hout.
  - intros texts Htexts.
    apply (streaming_outcome os level command_args lp sw child err);
      auto.
    rewrite Hout. simpl. clear Hout.
    induction Htexts as [|b t raw texts Hb _ IH]; simpl;
      constructor; auto.
    simpl. now rewrite Hb.
  - apply (streaming_outcome os level command_args lp sw child err);
      auto.
    rewrite Hout. simpl. clear.
    induction lines; simpl; constructor; auto.
Qed.
End Returns.

(** ** What a failing call raises *)

Section Raises.
Context `{PythonRuntime}.

(** [str.format] leaves text without a brace as it is. *)
Lemma str_format_plain template ex :
  plain template = true -> str_format template ex = Ok template.
Proof.
  unfold str_format.
  induction template as [|c rest IH]; simpl; [reflexivity|].
  intros [Hc Hrest]%andb_prop. apply negb_true_iff, orb_false_elim in Hc.
  destruct Hc as [-> ->]. simpl. now rewrite (IH Hrest).
Qed.

Lemma new_LoadingPatternError_plain ex :
  plain ex = true ->
  new_LoadingPatternError ex
  = Ok (mkExc LoadingPatternError
          (txt "Failed to execute the subprocess. " ++ ex)).
Proof.
  intros Hex. unfold new_LoadingPatternError.
  rewrite str_format_plain; [reflexivity|].
  unfold plain in *. now rewrite forallb_app, Hex.
Qed.

(** X20: a call never returns when the child's exit code is not zero,
    whatever the level, the loading pattern and the pipes. *)
Lemma nonzero_exit_never_returns os level command_args lp sw child rc out :
  os (effective_args command_args) = Ok child ->
  child_wait child = Ok rc ->
  rc <> 0%Z ->
  (run os level command_args lp sw).1 <> Ok out.
Proof.
  intros Hos Hwait Hrc. rewrite run_outcome, Hos, supervise_outcome.
  assert (Hrethrow : forall args e, rethrow args (Raise e) <> Ok out).
  { intros args e. unfold rethrow. destruct (caught e); [|discriminate].
    now destruct (new_LoadingPatternError _). }
  destruct (observe _ _ _ _ _ _).1 as [[po left]|e]; [|apply Hrethrow].
  unfold conclude. simpl proc_wait. rewrite Hwait.
  apply Z.eqb_neq in Hrc. rewrite Hrc. simpl.
  destruct (if bool_decide (po = []) then _ else _); [|apply Hrethrow].
  destruct (_check_and_convert_stream_to_string _); [|apply Hrethrow].
  destruct (new_LoadingPatternError _); apply Hrethrow.
Qed.

(** X21: a call never returns when [Popen] raises. *)
Lemma launch_failure_never_returns os level command_args lp sw e out :
  os (effective_args command_args) = Raise e ->
  (run os level command_args lp sw).1 <> Ok out.
Proof.
  intros Hos. rewrite run_outcome, Hos. unfold rethrow.
  destruct (caught e); [|discriminate].
  now destruct (new_LoadingPatternError _).
Qed.

(** X22: when the message has no brace, a non-zero exit at level INFO or
    above raises [LoadingPatternError] with the argument vector, the exit code
    and the standard error read in its message. *)
Lemma nonzero_exit_message_when_plain
    os level command_args lp sw child rc out err :
  let kwargs := effective_args command_args in
  let message := exit_message (default (VList []) (kwargs !! "args")) rc err in
  (INFO <= level)%Z ->
  os kwargs = Ok child ->
  (forall n, (n < child_polls child)%nat ->
             (lp n (default StderrWriter sw)).2 = None) ->
  child_wait child = Ok rc ->
  rc <> 0%Z ->
  _check_and_convert_stream_to_string (proc_stdout (attach kwargs child))
  = Ok out ->
  _check_and_convert_stream_to_string (proc_stderr (attach kwargs child))
  = Ok err ->
  plain message = true ->
  (run os level command_args lp sw).1
  = Raise (mkExc LoadingPatternError
             (txt "Failed to execute the subprocess. " ++ message)).
Proof.
  intros kwargs message Hlevel Hos Hlp Hwait Hrc Hout Herr Hplain.
  rewrite run_outcome. fold kwargs. rewrite Hos.
  rewrite supervise_outcome. unfold observe.
  apply Z.leb_le in Hlevel. rewrite Hlevel.
  unfold mbind, M_bind.
  match goal with |- context [indicator_loop ?l ?w ?p ?n ?st] =>
    pose proof (indicator_loop_quiet l w p n st Hlp) as Hloop;
    destruct (indicator_loop l w p n st) as [r st1]
  end.
  simpl in Hloop. subst r. simpl.
  unfold conclude. simpl proc_wait. rewrite Hwait, Herr.
  rewrite bool_decide_eq_true_2 by reflexivity.
  unfold attach in Hout. cbn [proc_stdout] in Hout. rewrite Hout.
  apply Z.eqb_neq in Hrc. rewrite Hrc. simpl.
  fold message. now rewrite new_LoadingPatternError_plain.
Qed.

(** X23: when the message has no brace, an [OSError] or [ValueError] of
    [Popen] is raised again as [LoadingPatternError] with the argument
    vector and the text of the error in its message. *)
Lemma launch_failure_message_when_plain os level command_args lp sw e :
  let kwargs := effective_args command_args in
  let message := failure_message (default (VList []) (kwargs !! "args")) e in
  os kwargs = Raise e ->
  caught e = true ->
  plain message = true ->
  (run os level command_args lp sw).1
  = Raise (mkExc LoadingPatternError
             (txt "Failed to execute the subprocess. " ++ message)).
Proof.
  intros kwargs message Hos Hcaught Hplain.
  rewrite run_outcome. fold kwargs. rewrite Hos. unfold rethrow.
  rewrite Hcaught. fold message.
  now rewrite new_LoadingPatternError_plain.
Qed.
End Raises.

(** ** The trace of a call, event by event *)

Section Traces.
Context `{PythonRuntime}.

(** The state [supervise] ends in, given what the observation did. *)
Lemma supervise_state level lp w process st :
  (supervise level lp w [] process st).2
  = let r := observe level lp w process [] st in
    mkState (caller_args st)
      (trace r.2 ++
       match r.1 with
       | Raise _ => []
       | Ok _ =>
         Wait :: match proc_wait process with
                 | Ok _ => [Says (Write w linesep); Says (Flush w)]
                 | Raise _ => []
                 end
       end).
Proof.
  destruct (appends_observe level lp w process [] st) as (pre & E & _).
  unfold supervise, mbind, M_bind. cbv zeta.
  destruct (observe level lp w process [] st) as [[[out left]|e] st1];
    simpl in E; subst st1; simpl; [|now rewrite app_nil_r].
  unfold emit, lift. simpl.
  destruct (proc_wait process) as [rc|e]; simpl; [|reflexivity].
  rewrite <- !app_assoc. simpl.
  destruct (bool_decide (out = [])); unfold mret, M_ret; simpl;
    [destruct (_check_and_convert_stream_to_string left); simpl;
       [|reflexivity]|];
    (destruct (_check_and_convert_stream_to_string (proc_stderr process));
       simpl; [|reflexivity]);
    (destruct (negb (rc =? 0)%Z); [|reflexivity]);
    apply appends_nothing, appends_raise_LoadingPatternError.
Qed.

(** The trace of a call, given what the observation did. *)
Lemma run_trace os level command_args lp sw :
  let kwargs := effective_args command_args in
  let w := default StderrWriter sw in
  trace (run os level command_args lp sw).2
  = match os kwargs with
    | Raise _ => [Launch kwargs]
    | Ok child =>
      let r := observe level lp w (attach kwargs child) []
                 (mkState kwargs [Launch kwargs]) in
      trace r.2 ++
      match r.1 with
      | Raise _ => []
      | Ok _ =>
        Wait :: match child_wait child with
                | Ok _ => [Says (Write w linesep); Says (Flush w)]
                | Raise _ => []
                end
      end ++ [Release]
    end.
Proof.
  intros kwargs w. rewrite run_unfold. fold kwargs w.
  unfold try_except, with_context, Popen. simpl.
  destruct (os kwargs) as [child|e]; simpl.
  - set (process := attach kwargs child).
    set (st1 := mkState kwargs [Launch kwargs]).
    pose proof (supervise_state level lp w process st1) as Hst.
    cbv zeta in Hst.
    destruct (supervise level lp w [] process st1) as [outcome st2].
    simpl in Hst. subst st2. unfold emit. simpl.
    assert (Htail : forall (a b : list Event), (a ++ b) ++ [Release]
                    = a ++ b ++ [Release]) by (intros; now rewrite app_assoc).
    destruct outcome as [a|e]; simpl; [apply Htail|].
    destruct (caught e); simpl; [|apply Htail].
    rewrite (appends_nothing (wrap_failure e)) by apply appends_wrap_failure.
    apply Htail.
  - destruct (caught e); simpl; [|reflexivity].
    now rewrite (appends_nothing (wrap_failure e))
      by apply appends_wrap_failure.
Qed.

(** An indicator loop in which no call of the pattern raises. *)
Lemma indicator_loop_run lp w pending nth st :
  (forall n, (n < pending)%nat -> (lp (nth + n)%nat w).2 = None) ->
  indicator_loop lp w pending nth st
  = (Ok tt, mkState (caller_args st)
              (trace st ++ indicator_events lp w pending nth)).
Proof.
  revert nth st. induction pending as [|pending IH]; intros nth st Hlp;
    simpl; unfold mbind, M_bind, emit; simpl; [reflexivity|].
  unfold call_pattern.
  pose proof (Hlp 0%nat ltac:(lia)) as H0. rewrite Nat.add_0_r in H0.
  destruct (lp nth w) as [io raised]. simpl in H0. subst raised.
  unfold mbind, M_bind, emit. simpl.
  rewrite IH.
  - simpl. now rewrite <- !app_assoc.
  - intros n Hn. replace (S nth + n)%nat with (nth + S n)%nat by lia.
    apply Hlp. lia.
Qed.

Lemma observe_indicator level lp w process st :
  (INFO <= level)%Z ->
  (forall n, (n < proc_polls process)%nat -> (lp n w).2 = None) ->
  observe level lp w process [] st
  = (Ok ([], proc_stdout process),
     mkState (caller_args st)
       (trace st ++ indicator_events lp w (proc_polls process) 0)).
Proof.
  intros Hlevel Hlp. unfold observe.
  apply Z.leb_le in Hlevel. rewrite Hlevel.
  unfold mbind, M_bind. now rewrite indicator_loop_run.
Qed.

(** A streaming loop in which every line is rendered. *)
Lemma stream_loop_run lines decoded process_output st :
  Forall2 (fun line d => _check_and_process_bytes line = Ok d) lines decoded ->
  stream_loop lines process_output st
  = (Ok (process_output ++ concat decoded),
     mkState (caller_args st) (trace st ++ (LogDebug <$> decoded))).
Proof.
  intros Hlines. revert process_output st.
  induction Hlines as [|line d lines decoded Hline _ IH];
    intros process_output st; simpl.
  - unfold mret, M_ret. rewrite !app_nil_r. now destruct st.
  - unfold mbind, M_bind, lift, emit. rewrite Hline. simpl.
    rewrite IH. simpl. now rewrite <- !app_assoc.
Qed.

Lemma polls_app tr1 tr2 : polls (tr1 ++ tr2) = (polls tr1 + polls tr2)%nat.
Proof. unfold polls. now rewrite filter_app, length_app. Qed.

Lemma patterns_app tr1 tr2 : patterns (tr1 ++ tr2) = patterns tr1 ++ patterns tr2.
Proof.
  induction tr1 as [|ev tr1 IH]; [reflexivity|].
  destruct ev; simpl; now rewrite ?IH.
Qed.

Lemma debug_lines_app tr1 tr2 :
  debug_lines (tr1 ++ tr2) = debug_lines tr1 ++ debug_lines tr2.
Proof.
  induction tr1 as [|ev tr1 IH]; [reflexivity|].
  destruct ev; simpl; now rewrite ?IH.
Qed.

Lemma written_app w tr1 tr2 :
  written w (tr1 ++ tr2) = written w tr1 ++ written w tr2.
Proof.
  induction tr1 as [|ev tr1 IH]; [reflexivity|].
  destruct ev; simpl; rewrite ?IH, <- ?app_assoc; reflexivity.
Qed.

Lemma polls_indicator_events lp w pending nth :
  polls (indicator_events lp w pending nth) = S pending.
Proof.
  revert nth. induction pending as [|pending IH]; intros nth;
    [reflexivity|].
  change (indicator_events lp w (S pending) nth)
    with ([Poll; Pattern (lp nth w).1] ++ indicator_events lp w pending (S nth)).
  now rewrite polls_app, IH.
Qed.

Lemma patterns_indicator_events lp w pending nth :
  patterns (indicator_events lp w pending nth)
  = (fun n => (lp n w).1) <$> seq nth pending.
Proof.
  revert nth. induction pending as [|pending IH]; intros nth;
    [reflexivity|].
  simpl. now rewrite IH.
Qed.

Lemma says_indicator_events lp w pending nth :
  says (indicator_events lp w pending nth) = [].
Proof.
  revert nth. induction pending as [|pending IH]; intros nth;
    [reflexivity|]. simpl. apply IH.
Qed.

Lemma debug_lines_indicator_events lp w pending nth :
  debug_lines (indicator_events lp w pending nth) = [].
Proof.
  revert nth. induction pending as [|pending IH]; intros nth;
    [reflexivity|]. simpl. apply IH.
Qed.

Lemma wait_tail_quiet w (wait : PyResult Z) :
  let tail := Wait :: match wait with
                      | Ok _ => [Says (Write w linesep); Says (Flush w)]
                      | Raise _ => []
                      end ++ [Release] in
  polls tail = 0%nat /\ patterns tail = [] /\ debug_lines tail = [].
Proof. now destruct wait. Qed.

(** The trace of a call at level INFO or above in which no call of the
    pattern raises. *)
Lemma run_trace_indicator os level command_args lp sw child :
  let kwargs := effective_args command_args in
  let w := default StderrWriter sw in
  (INFO <= level)%Z ->
  os kwargs = Ok child ->
  (forall n, (n < child_polls child)%nat -> (lp n w).2 = None) ->
  trace (run os level command_args lp sw).2
  = Launch kwargs :: indicator_events lp w (child_polls child) 0
    ++ Wait :: match child_wait child with
               | Ok _ => [Says (Write w linesep); Says (Flush w)]
               | Raise _ => []
               end ++ [Release].
Proof.
  intros kwargs w Hlevel Hos Hlp. rewrite run_trace. fold kwargs w.
  rewrite Hos. cbv zeta.
  rewrite observe_indicator by assumption. reflexivity.
Qed.

Lemma polls_and_patterns_app tr1 tr2 :
  polls_and_patterns (tr1 ++ tr2)
  = polls_and_patterns tr1 ++ polls_and_patterns tr2.
Proof.
  induction tr1 as [|ev tr1 IH]; [reflexivity|].
  destruct ev; simpl; now rewrite ?IH.
Qed.

Lemma polls_and_patterns_indicator_events lp w pending nth :
  polls_and_patterns (indicator_events lp w pending nth)
  = concat ((fun n => [Poll; Pattern (lp n w).1]) <$> seq nth pending)
    ++ [Poll].
Proof.
  revert nth. induction pending as [|pending IH]; intros nth;
    [reflexivity|].
  simpl. now rewrite IH.
Qed.

(** X1: at level INFO or above, when no call of the loading pattern
    raises, the polls and the calls of the pattern happen in this order:
    each poll that answers [None] is followed at once by one call of the
    pattern, the n-th call for the n-th such poll and with the writer of
    the call, and one last poll, which finds the child exited, ends the
    loop; so the child is polled once more than the number of calls of
    the pattern, and no line is handed to [LOG.debug]. *)
Theorem indicator_calls_pattern_after_each_pending_poll
    os level command_args lp sw child :
  let w := default StderrWriter sw in
  let tr := trace (run os level command_args lp sw).2 in
  (INFO <= level)%Z ->
  os (effective_args command_args) = Ok child ->
  (forall n, (n < child_polls child)%nat -> (lp n w).2 = None) ->
  polls_and_patterns tr
  = concat ((fun n => [Poll; Pattern (lp n w).1])
              <$> seq 0 (child_polls child)) ++ [Poll]
  /\ polls tr = S (child_polls child)
  /\ patterns tr = (fun n => (lp n w).1) <$> seq 0 (child_polls child)
  /\ debug_lines tr = [].
Proof.
  intros w tr Hlevel Hos Hlp. subst tr.
  rewrite (run_trace_indicator os level command_args lp sw child)
    by assumption.
  fold w. destruct (wait_tail_quiet w (child_wait child)) as (Hp & Hc & Hd).
  cbv zeta in Hp, Hc, Hd.
  change (Launch ?k :: ?a ++ ?b) with ([Launch k] ++ a ++ b).
  split.
  - rewrite !polls_and_patterns_app, polls_and_patterns_indicator_events.
    simpl. destruct (child_wait child); simpl; now rewrite app_nil_r.
  - rewrite !polls_app, !patterns_app, !debug_lines_app, Hp, Hc, Hd.
    rewrite polls_indicator_events, patterns_indicator_events,
      debug_lines_indicator_events.
    simpl. rewrite !app_nil_r. split; [lia | auto].
Qed.

Lemma writer_eqb_refl w : writer_eqb w w = true.
Proof. destruct w; simpl; [apply Nat.eqb_refl | reflexivity]. Qed.

Lemma written_default_pattern w pending nth :
  written w (indicator_events default_pattern w pending nth)
  = concat (replicate pending (txt ".")).
Proof.
  revert nth. induction pending as [|pending IH]; intros nth;
    [reflexivity|].
  simpl. rewrite writer_eqb_refl, IH. reflexivity.
Qed.

(** X2: with the default loading pattern, at level INFO or above, when the
    wait gives an exit code, all that the stream writer of the call
    receives is one dot for each poll that answered [None], then the line
    separator: no dot at all when the child had already exited at the
    first poll. *)
Theorem default_pattern_draws_one_dot_per_pending_poll
    os level command_args sw child rc :
  let w := default StderrWriter sw in
  (INFO <= level)%Z ->
  os (effective_args command_args) = Ok child ->
  child_wait child = Ok rc ->
  written w (trace (run os level command_args default_pattern sw).2)
  = concat (replicate (child_polls child) (txt ".")) ++ linesep.
Proof.
  intros w Hlevel Hos Hwait.
  rewrite (run_trace_indicator os level command_args default_pattern sw child)
    by (auto; intros; reflexivity).
  fold w. rewrite Hwait.
  change (Launch ?k :: ?a ++ ?b) with ([Launch k] ++ a ++ b).
  rewrite !written_app, written_default_pattern. simpl.
  now rewrite writer_eqb_refl, !app_nil_r.
Qed.

Lemma appends_indicator_loop_only lp w pending nth :
  appends is_indicator (indicator_loop lp w pending nth).
Proof.
  revert nth. induction pending as [|pending IH]; intros nth; simpl;
    (apply appends_bind; [now apply appends_emit|]); intros [].
  - apply appends_ret.
  - apply appends_bind; [|intros; apply IH].
    unfold call_pattern. destruct (lp nth w) as [io [e|]];
      (apply appends_bind; [now apply appends_emit|]); intros [].
    + apply appends_raise.
    + apply appends_ret.
Qed.

Lemma appends_stream_loop_only lines process_output :
  appends is_debug (stream_loop lines process_output).
Proof.
  revert process_output.
  induction lines as [|line rest IH]; intros process_output; simpl.
  - apply appends_ret.
  - apply appends_bind; [apply appends_lift|]. intros decoded_line.
    apply appends_bind; [now apply appends_emit | intros; apply IH].
Qed.

Lemma appends_observe_mode level lp w process process_output :
  appends (if (INFO <=? level)%Z then is_indicator else is_debug)
    (observe level lp w process process_output).
Proof.
  unfold observe. destruct (INFO <=? level)%Z.
  - apply appends_bind; [apply appends_indicator_loop_only|].
    intros. apply appends_ret.
  - destruct (proc_stdout process); [|apply appends_ret].
    apply appends_bind; [apply appends_stream_loop_only|].
    intros. apply appends_ret.
Qed.

Lemma indicator_no_debug_lines evs :
  forallb is_indicator evs = true -> debug_lines evs = [].
Proof.
  induction evs as [|ev evs IH]; [reflexivity|].
  intros [Hev Hevs]%andb_prop. destruct ev; simpl; auto; discriminate.
Qed.

Lemma debug_no_polls evs :
  forallb is_debug evs = true -> polls evs = 0%nat /\ patterns evs = [].
Proof.
  induction evs as [|ev evs IH]; [now split|].
  intros [Hev Hevs]%andb_prop. destruct (IH Hevs) as [Hp Hc].
  destruct ev; try discriminate. simpl. split; [exact Hp | exact Hc].
Qed.

(** X3: the two ways of observing the child exclude each other, however
    the call ends: at level INFO or above no line is handed to
    [LOG.debug]; below it the child is never polled and the loading
    pattern is never called. *)
Theorem observation_modes_exclude_each_other os level command_args lp sw :
  let tr := trace (run os level command_args lp sw).2 in
  if (INFO <=? level)%Z then debug_lines tr = []
  else polls tr = 0%nat /\ patterns tr = [].
Proof.
  intros tr. subst tr. rewrite run_trace.
  destruct (os (effective_args command_args)) as [child|e];
    [|now destruct (INFO <=? level)%Z].
  cbv zeta.
  set (kwargs := effective_args command_args).
  set (w := default StderrWriter sw).
  destruct (appends_observe_mode level lp w (attach kwargs child) []
              (mkState kwargs [Launch kwargs])) as (evs & E & Hevs).
  destruct (observe level lp w (attach kwargs child) []
              (mkState kwargs [Launch kwargs])) as [r st1].
  simpl in E. subst st1. simpl.
  assert (Htail : forall tail,
            polls tail = 0%nat /\ patterns tail = [] /\ debug_lines tail = [] ->
            let tr := Launch kwargs :: evs ++ tail in
            if (INFO <=? level)%Z then debug_lines tr = []
            else polls tr = 0%nat /\ patterns tr = []).
  { intros tail (Hp & Hc & Hd) tr. subst tr.
    change (Launch kwargs :: evs ++ tail) with ([Launch kwargs] ++ evs ++ tail).
    destruct (INFO <=? level)%Z.
    - now rewrite !debug_lines_app, (indicator_no_debug_lines evs), Hd.
    - destruct (debug_no_polls evs Hevs) as [Hp' Hc'].
      now rewrite !polls_app, !patterns_app, Hp, Hc, Hp', Hc'. }
  destruct r as [out|e].
  - apply (Htail (Wait :: _ ++ [Release])).
    apply wait_tail_quiet.
  - apply (Htail [Release]). now split.
Qed.

Lemma debug_lines_logged decoded : debug_lines (LogDebug <$> decoded) = decoded.
Proof.
  induction decoded as [|d decoded IH]; [reflexivity|].
  rewrite fmap_cons. simpl. now rewrite IH.
Qed.

Lemma observe_streaming level lp w process out decoded st :
  (level < INFO)%Z ->
  proc_stdout process = Some out ->
  Forall2 (fun line d => _check_and_process_bytes line = Ok d)
    (stream_lines out) decoded ->
  observe level lp w process [] st
  = (Ok (concat decoded, Some (drained out)),
     mkState (caller_args st) (trace st ++ (LogDebug <$> decoded))).
Proof.
  intros Hlevel Hout Hlines. unfold observe.
  apply Z.leb_gt in Hlevel. rewrite Hlevel, Hout.
  unfold mbind, M_bind.
  now rewrite (stream_loop_run _ decoded) by assumption.
Qed.

Lemma attach_piped_stdout kwargs child :
  is_PIPE (kwargs !! "stdout") = true ->
  proc_stdout (attach kwargs child) = Some (child_stdout child).
Proof. intros Hpipe. unfold attach. simpl. now rewrite Hpipe. Qed.

(** X4: below level INFO, with [stdout] a pipe, when every line of the
    pipe is rendered by [_check_and_process_bytes], what [LOG.debug] is
    handed is the rendered lines, one call for each line, in the order of
    the pipe. *)
Theorem streaming_logs_each_line os level command_args lp sw child decoded :
  (level < INFO)%Z ->
  is_PIPE (effective_args command_args !! "stdout") = true ->
  os (effective_args command_args) = Ok child ->
  Forall2 (fun line d => _check_and_process_bytes line = Ok d)
    (stream_lines (child_stdout child)) decoded ->
  debug_lines (trace (run os level command_args lp sw).2) = decoded.
Proof.
  intros Hlevel Hpipe Hos Hlines. rewrite run_trace, Hos. cbv zeta.
  rewrite (observe_streaming level lp _ _ (child_stdout child) decoded)
    by auto using attach_piped_stdout.
  cbn [fst snd trace app].
  destruct (wait_tail_quiet (default StderrWriter sw) (child_wait child))
    as (_ & _ & Hd).
  cbv zeta in Hd.
  change (Launch ?k :: ?a ++ ?b) with ([Launch k] ++ a ++ b).
  rewrite !debug_lines_app, Hd, app_nil_r. apply debug_lines_logged.
Qed.

(** X5: when [Popen] raises, the launch is all that happened: the child
    was never polled, the loading pattern never called, nothing was
    written to the stream writer, and no handle was released. *)
Theorem failed_launch_does_nothing_else os level command_args lp sw e :
  os (effective_args command_args) = Raise e ->
  trace (run os level command_args lp sw).2
  = [Launch (effective_args command_args)].
Proof. intros Hos. now rewrite run_trace, Hos. Qed.

(** An indicator loop whose [k]-th call of the pattern is the first to
    raise. *)
Lemma indicator_loop_raises lp w pending nth k e st :
  (k < pending)%nat ->
  (forall n, (n < k)%nat -> (lp (nth + n)%nat w).2 = None) ->
  (lp (nth + k)%nat w).2 = Some e ->
  indicator_loop lp w pending nth st
  = (Raise e,
     mkState (caller_args st)
       (trace st ++ indicator_events lp w k nth
        ++ [Pattern (lp (nth + k)%nat w).1])).
Proof.
  revert pending nth st.
  induction k as [|k IH]; intros pending nth st Hk Hquiet Hraise;
    (destruct pending as [|pending]; [lia|]);
    simpl; unfold mbind, M_bind, emit; simpl; unfold call_pattern.
  - rewrite Nat.add_0_r in *.
    destruct (lp nth w) as [io raised]. simpl in Hraise. subst raised.
    unfold mbind, M_bind, emit, raise. simpl. now rewrite <- !app_assoc.
  - pose proof (Hquiet 0%nat ltac:(lia)) as H0. rewrite Nat.add_0_r in H0.
    destruct (lp nth w) as [io raised] eqn:Hlp. simpl in H0. subst raised.
    unfold mbind, M_bind, emit. simpl.
    rewrite (IH pending (S nth)).
    + simpl. rewrite <- !app_assoc. simpl.
      now replace (S (nth + k)) with (nth + S k)%nat by lia.
    + lia.
    + intros n Hn. replace (S nth + n)%nat with (nth + S n)%nat by lia.
      apply Hquiet. lia.
    + now replace (S nth + k)%nat with (nth + S k)%nat by lia.
Qed.

(** X6: at level INFO or above, when a call of the loading pattern raises
    an exception that is neither an [OSError] nor a [ValueError], the
    loop stops at that call, the call of the function raises that very
    exception, and nothing was written by the function to the stream
    writer. *)
Theorem pattern_exception_passes_through
    os level command_args lp sw child k e :
  let w := default StderrWriter sw in
  (INFO <= level)%Z ->
  os (effective_args command_args) = Ok child ->
  (k < child_polls child)%nat ->
  (forall n, (n < k)%nat -> (lp n w).2 = None) ->
  (lp k w).2 = Some e ->
  caught e = false ->
  (run os level command_args lp sw).1 = Raise e
  /\ length (patterns (trace (run os level command_args lp sw).2)) = S k
  /\ says (trace (run os level command_args lp sw).2) = [].
Proof.
  intros w Hlevel Hos Hk Hquiet Hraise Hcaught.
  assert (Hobs : forall st,
    observe level lp w (attach (effective_args command_args) child) [] st
    = (Raise e,
       mkState (caller_args st)
         (trace st ++ indicator_events lp w k 0 ++ [Pattern (lp k w).1]))).
  { intros st. unfold observe. apply Z.leb_le in Hlevel. rewrite Hlevel.
    unfold mbind, M_bind.
    now rewrite (indicator_loop_raises lp w _ 0 k e). }
  split; [|split].
  - rewrite run_outcome, Hos, supervise_outcome. fold w. rewrite Hobs.
    simpl. now rewrite Hcaught.
  - rewrite run_trace, Hos. cbv zeta. fold w. rewrite Hobs.
    cbn [fst snd trace caller_args].
    rewrite !patterns_app, patterns_indicator_events.
    cbn [patterns app].
    rewrite !length_app, length_fmap, length_seq. simpl. lia.
  - rewrite run_trace, Hos. cbv zeta. fold w. rewrite Hobs.
    cbn [fst snd trace caller_args].
    now rewrite !says_app, says_indicator_events.
Qed.

(** X7: when the caller's [stdout] entry is true in a condition, the call
    leaves the caller's dictionary exactly as it was, however it ends. *)
Theorem given_stdout_leaves_dictionary os level command_args lp sw :
  from_option truthy false (command_args !! "stdout") = true ->
  caller_args (run os level command_args lp sw).2 = command_args.
Proof.
  intros Htruthy.
  destruct (run_shape os level command_args lp sw) as [-> _].
  unfold effective_args. now rewrite Htruthy.
Qed.

(** X8: when [stdout] is not a pipe after lines 71 to 74 (the caller sent
    it elsewhere), nothing the child writes to its standard output
    reaches the call: its result, its exception, its trace and the
    dictionary are the same whatever the child wrote there. *)
Theorem stdout_not_captured_without_pipe os level command_args lp sw written' :
  is_PIPE (effective_args command_args !! "stdout") = false ->
  run (with_stdout written' os) level command_args lp sw
  = run os level command_args lp sw.
Proof.
  intros Hpipe. rewrite !run_unfold.
  unfold try_except, with_context, Popen, with_stdout. simpl.
  destruct (os (effective_args command_args)) as [child|e]; [|reflexivity].
  unfold attach. simpl. now rewrite Hpipe.
Qed.
End Traces.

(** ** The constructor of [LoadingPatternError] *)

Section Constructor.
Context `{PythonRuntime}.

Lemma format_scan_plain_prefix p t ex :
  plain p = true ->
  format_scan InLiteral (p ++ t) ex
  = match format_scan InLiteral t ex with
    | Ok r => Ok (p ++ r)
    | Raise e => Raise e
    end.
Proof.
  induction p as [|c p IH]; simpl.
  - intros _. now destruct (format_scan InLiteral t ex).
  - intros [Hc Hp]%andb_prop. apply negb_true_iff, orb_false_elim in Hc.
    destruct Hc as [-> ->]. simpl. rewrite (IH Hp).
    now destruct (format_scan InLiteral t ex).
Qed.

Lemma format_scan_escape s ex : format_scan InLiteral (escape s) ex = Ok s.
Proof.
  induction s as [|c s IH]; [reflexivity|]. cbn [escape].
  destruct (c =? chr "{") eqn:Hopen.
  - apply N.eqb_eq in Hopen. subst c. simpl. now rewrite IH.
  - destruct (c =? chr "}") eqn:Hclose.
    + apply N.eqb_eq in Hclose. subst c. simpl. now rewrite IH.
    + cbn [orb format_scan]. unfold step. rewrite Hopen, Hclose.
      now rewrite IH.
Qed.

Lemma format_scan_ex_field t ex :
  format_scan InLiteral (txt "{ex}" ++ t) ex
  = match format_scan InLiteral t ex with
    | Ok tail => Ok (ex ++ tail)
    | Raise e => Raise e
    end.
Proof. simpl. now destruct (format_scan InLiteral t ex). Qed.

Lemma plain_prefix :
  plain (txt "Failed to execute the subprocess. ") = true.
Proof. reflexivity. Qed.

(** X9: the constructor reads its argument as a format string: an
    argument in which every brace is doubled gives the message
    "Failed to execute the subprocess. " followed by the text with single
    braces. *)
Theorem constructor_halves_doubled_braces s :
  new_LoadingPatternError (escape s)
  = Ok (mkExc LoadingPatternError
          (txt "Failed to execute the subprocess. " ++ s)).
Proof.
  unfold new_LoadingPatternError, str_format.
  rewrite format_scan_plain_prefix by apply plain_prefix.
  now rewrite format_scan_escape.
Qed.

(** X10: an argument with an empty pair of braces after text without a
    brace makes the constructor raise [IndexError], whatever follows the
    pair: no exception object is made. *)
Theorem constructor_rejects_empty_field s t :
  plain s = true ->
  new_LoadingPatternError (s ++ txt "{}" ++ t) = Raise (positional_error 0).
Proof.
  intros Hs. unfold new_LoadingPatternError, str_format.
  rewrite format_scan_plain_prefix by apply plain_prefix.
  rewrite format_scan_plain_prefix by assumption.
  reflexivity.
Qed.

(** X11: an argument with the field [{ex}] between texts without a brace
    gets the whole argument put in the place of the field. *)
Theorem constructor_substitutes_ex_field s t :
  plain s = true ->
  plain t = true ->
  new_LoadingPatternError (s ++ txt "{ex}" ++ t)
  = Ok (mkExc LoadingPatternError
          (txt "Failed to execute the subprocess. " ++ s
           ++ (s ++ txt "{ex}" ++ t) ++ t)).
Proof.
  intros Hs Ht. unfold new_LoadingPatternError, str_format.
  rewrite format_scan_plain_prefix by apply plain_prefix.
  rewrite format_scan_plain_prefix by assumption.
  rewrite format_scan_ex_field.
  pose proof (str_format_plain t (s ++ txt "{ex}" ++ t) Ht) as Htail.
  unfold str_format in Htail. now rewrite Htail.
Qed.

(** X12: an argument that ends with a single brace after text without a
    brace makes the constructor raise [ValueError]. *)
Theorem constructor_rejects_single_brace s :
  plain s = true ->
  new_LoadingPatternError (s ++ txt "{")
  = Raise (format_error "Single '{' encountered in format string")
  /\ new_LoadingPatternError (s ++ txt "}")
     = Raise (format_error "Single '}' encountered in format string").
Proof.
  intros Hs. unfold new_LoadingPatternError, str_format.
  split;
    rewrite format_scan_plain_prefix by apply plain_prefix;
    rewrite format_scan_plain_prefix by assumption;
    reflexivity.
Qed.
End Constructor.

(** ** Failures after the launch *)

Section Failures.
Context `{PythonRuntime}.

(** A call that got to [process.wait()] had an observation that ended
    without an exception. *)
Lemma reached_wait os level command_args lp sw child :
  let kwargs := effective_args command_args in
  let w := default StderrWriter sw in
  os kwargs = Ok child ->
  In Wait (trace (run os level command_args lp sw).2) ->
  exists out pre,
    forallb looping pre = true
    /\ observe level lp w (attach kwargs child) []
         (mkState kwargs [Launch kwargs])
       = (Ok out, mkState kwargs (Launch kwargs :: pre)).
Proof.
  intros kwargs w Hos Hin. rewrite run_trace in Hin. fold kwargs w in Hin.
  rewrite Hos in Hin. cbv zeta in Hin.
  destruct (appends_observe level lp w (attach kwargs child) []
              (mkState kwargs [Launch kwargs])) as (pre & E & Hpre).
  destruct (observe level lp w (attach kwargs child) []
              (mkState kwargs [Launch kwargs])) as [[out|e] st1];
    simpl in E; subst st1; simpl in Hin.
  - now exists out, pre.
  - exfalso. destruct Hin as [Hin|Hin]; [discriminate|].
    apply in_app_or in Hin as [Hin|[Hin|[]]]; [|discriminate].
    now apply (looping_no_wait pre).
Qed.

(** X13: when the call got to [process.wait()] and the wait raises an
    [OSError] or a [ValueError] whose message, put after the argument
    vector, has no brace, the call raises [LoadingPatternError] with the
    argument vector and the text of that error in its message, and the
    function wrote nothing to the stream writer: no line separator ends
    the dots. *)
Theorem wait_failure_is_wrapped os level command_args lp sw child e :
  let kwargs := effective_args command_args in
  let message := failure_message (default (VList []) (kwargs !! "args")) e in
  os kwargs = Ok child ->
  In Wait (trace (run os level command_args lp sw).2) ->
  child_wait child = Raise e ->
  caught e = true ->
  plain message = true ->
  (run os level command_args lp sw).1
  = Raise (mkExc LoadingPatternError
             (txt "Failed to execute the subprocess. " ++ message))
  /\ says (trace (run os level command_args lp sw).2) = [].
Proof.
  intros kwargs message Hos Hin Hwait Hcaught Hplain.
  destruct (reached_wait os level command_args lp sw child Hos Hin)
    as ([po left] & pre & Hpre & Hobs).
  fold kwargs in Hobs. split.
  - rewrite run_outcome. fold kwargs. rewrite Hos, supervise_outcome, Hobs.
    simpl. unfold conclude. simpl proc_wait. rewrite Hwait.
    unfold rethrow. rewrite Hcaught. fold message.
    now rewrite new_LoadingPatternError_plain.
  - rewrite run_trace. fold kwargs. rewrite Hos. cbv zeta. rewrite Hobs.
    cbn [fst snd trace]. rewrite Hwait.
    change (Launch kwargs :: pre) with ([Launch kwargs] ++ pre).
    now rewrite !says_app, (looping_no_says pre).
Qed.

(** X14: at level INFO or above, with [stdout] a pipe and a loading
    pattern of which no call raises, when the wait gives an exit code,
    the bytes the child wrote to its standard output are not valid UTF-8
    and the message made of the argument vector and the text of the
    decoding error has no brace, the call raises [LoadingPatternError]
    with that message, whatever the exit code is, zero too: the exit code
    is not in the message. *)
Theorem undecodable_output_fails_the_call
    os level command_args lp sw child rc raw :
  let kwargs := effective_args command_args in
  let error := mkExc UnicodeDecodeError (decode_error_text (concat raw)) in
  let message := failure_message (default (VList []) (kwargs !! "args")) error in
  (INFO <= level)%Z ->
  is_PIPE (kwargs !! "stdout") = true ->
  os kwargs = Ok child ->
  (forall n, (n < child_polls child)%nat ->
             (lp n (default StderrWriter sw)).2 = None) ->
  child_wait child = Ok rc ->
  child_stdout child = BinaryIO raw ->
  utf8_decode (concat raw) = None ->
  plain message = true ->
  (run os level command_args lp sw).1
  = Raise (mkExc LoadingPatternError
             (txt "Failed to execute the subprocess. " ++ message)).
Proof.
  intros kwargs error message Hlevel Hpipe Hos Hlp Hwait Hout Hraw Hplain.
  rewrite run_outcome. fold kwargs. rewrite Hos, supervise_outcome.
  rewrite observe_indicator by assumption.
  cbn [fst]. unfold conclude. simpl proc_wait. rewrite Hwait.
  rewrite bool_decide_eq_true_2 by reflexivity.
  rewrite attach_piped_stdout by assumption. rewrite Hout.
  simpl. rewrite Hraw. fold error. unfold rethrow.
  replace (caught error) with true by reflexivity.
  fold message. now rewrite new_LoadingPatternError_plain.
Qed.

(** A streaming loop that stops at the first line that is not rendered. *)
Lemma stream_loop_raises good decoded bad rest e process_output st :
  Forall2 (fun line d => _check_and_process_bytes line = Ok d) good decoded ->
  _check_and_process_bytes bad = Raise e ->
  stream_loop (good ++ bad :: rest) process_output st
  = (Raise e,
     mkState (caller_args st) (trace st ++ (LogDebug <$> decoded))).
Proof.
  intros Hgood Hbad. revert process_output st.
  induction Hgood as [|line d good decoded Hline _ IH];
    intros process_output st; simpl.
  - unfold mbind, M_bind, lift. rewrite Hbad. rewrite app_nil_r.
    now destruct st.
  - unfold mbind, M_bind, lift, emit. rewrite Hline. simpl.
    rewrite IH. simpl. now rewrite <- !app_assoc.
Qed.

Lemma helper_raises_decode_error line e :
  _check_and_process_bytes line = Raise e -> caught e = true.
Proof.
  destruct line as [b|s]; simpl; [|discriminate].
  destruct (utf8_decode b); [discriminate|].
  now intros [= <-].
Qed.

(** X15: below level INFO, with [stdout] a pipe, when a line of the pipe
    is not valid UTF-8 the loop stops there: the lines before it were
    handed to [LOG.debug] and no line after it, the function wrote
    nothing to the stream writer, and the call raises
    [LoadingPatternError] made from the argument vector and the decoding
    error (or what its constructor raises). *)
Theorem streaming_stops_at_undecodable_line
    os level command_args lp sw child good decoded bad rest e :
  let kwargs := effective_args command_args in
  (level < INFO)%Z ->
  is_PIPE (kwargs !! "stdout") = true ->
  os kwargs = Ok child ->
  stream_lines (child_stdout child) = good ++ bad :: rest ->
  Forall2 (fun line d => _check_and_process_bytes line = Ok d) good decoded ->
  _check_and_process_bytes bad = Raise e ->
  debug_lines (trace (run os level command_args lp sw).2) = decoded
  /\ says (trace (run os level command_args lp sw).2) = []
  /\ (run os level command_args lp sw).1
     = match new_LoadingPatternError
               (failure_message (default (VList []) (kwargs !! "args")) e) with
       | Ok e' | Raise e' => Raise e'
       end.
Proof.
  intros kwargs Hlevel Hpipe Hos Hlines Hgood Hbad.
  assert (Hobs : forall st,
    observe level lp (default StderrWriter sw) (attach kwargs child) [] st
    = (Raise e,
       mkState (caller_args st) (trace st ++ (LogDebug <$> decoded)))).
  { intros st. unfold observe. apply Z.leb_gt in Hlevel. rewrite Hlevel.
    rewrite attach_piped_stdout by assumption.
    unfold mbind, M_bind. rewrite Hlines.
    now rewrite (stream_loop_raises good decoded bad rest e). }
  split; [|split].
  - rewrite run_trace. fold kwargs. rewrite Hos. cbv zeta. rewrite Hobs.
    cbn [fst snd trace caller_args].
    rewrite !debug_lines_app, debug_lines_logged. simpl.
    now rewrite app_nil_r.
  - rewrite run_trace. fold kwargs. rewrite Hos. cbv zeta. rewrite Hobs.
    cbn [fst snd trace caller_args].
    rewrite !says_app. simpl. rewrite app_nil_r.
    clear. induction decoded as [|d decoded IH]; [reflexivity|].
    rewrite fmap_cons. simpl. exact IH.
  - rewrite run_outcome. fold kwargs. rewrite Hos, supervise_outcome, Hobs.
    simpl. now rewrite (helper_raises_decode_error bad e Hbad).
Qed.

Lemma utf8_decode_N_ascii (bs : list N) :
  forallb (fun b => b <? 0x80) bs = true -> utf8_decode_N bs = Some bs.
Proof.
  induction bs as [|b r IH]; simpl; [reflexivity|].
  intros [Hb Hr]%andb_prop. rewrite Hb, (IH Hr). reflexivity.
Qed.

(** X16: bytes that are all below 0x80 are never refused by
    [_check_and_process_bytes]: the result is the same characters, with
    the whitespace at both ends removed. *)
Theorem ascii_bytes_are_processed (b : bytes) :
  forallb (fun x => Byte.to_N x <? 0x80) b = true ->
  _check_and_process_bytes (PyBytes b) = Ok (strip (Byte.to_N <$> b)).
Proof.
  intros Hb. simpl. unfold utf8_decode.
  rewrite utf8_decode_N_ascii; [reflexivity|].
  clear -Hb. induction b as [|x b IH]; [reflexivity|].
  rewrite fmap_cons. cbn [forallb] in *. apply andb_prop in Hb as [Hx Hb].
  rewrite Hx. exact (IH Hb).
Qed.
End Failures.

(** ** The code points [bytes.decode] gives *)

Lemma in_range_spec lo hi b : in_range lo hi b = true <-> lo <= b /\ b <= hi.
Proof. unfold in_range. now rewrite andb_true_iff, !N.leb_le. Qed.

Lemma scalar_spec c :
  scalar c = true <-> c < 0xD800 \/ (0xE000 <= c /\ c < 0x110000).
Proof.
  unfold scalar.
  now rewrite orb_true_iff, andb_true_iff, !N.ltb_lt, N.leb_le.
Qed.

Ltac code_point_bounds :=
  unfold is_continuation, low_bits in *;
  rewrite ?in_range_spec in *;
  rewrite !N.land_ones, !N.shiftl_mul_pow2;
  apply scalar_spec;
  repeat match goal with
         | |- context [?b =? ?c] => destruct (N.eqb_spec b c)
         | H : context [?b =? ?c] |- _ => destruct (N.eqb_spec b c)
         end;
  zify; Z.to_euclidean_division_equations; lia.

Lemma two_bytes_scalar b0 b1 :
  in_range 0xC2 0xDF b0 = true -> is_continuation b1 = true ->
  scalar (N.shiftl (low_bits 5 b0) 6 + low_bits 6 b1) = true.
Proof. intros H0 H1. code_point_bounds. Qed.

Lemma three_bytes_scalar b0 b1 b2 :
  in_range 0xE0 0xEF b0 = true ->
  in_range (if b0 =? 0xE0 then 0xA0 else 0x80)
           (if b0 =? 0xED then 0x9F else 0xBF) b1 = true ->
  is_continuation b2 = true ->
  scalar (N.shiftl (low_bits 4 b0) 12 + N.shiftl (low_bits 6 b1) 6
          + low_bits 6 b2) = true.
Proof. intros H0 H1 H2. code_point_bounds. Qed.

Lemma four_bytes_scalar b0 b1 b2 b3 :
  in_range 0xF0 0xF4 b0 = true ->
  in_range (if b0 =? 0xF0 then 0x90 else 0x80)
           (if b0 =? 0xF4 then 0x8F else 0xBF) b1 = true ->
  is_continuation b2 = true -> is_continuation b3 = true ->
  scalar (N.shiftl (low_bits 3 b0) 18 + N.shiftl (low_bits 6 b1) 12
          + N.shiftl (low_bits 6 b2) 6 + low_bits 6 b3) = true.
Proof. intros H0 H1 H2 H3. code_point_bounds. Qed.

Lemma utf8_decode_N_scalar n : forall bs t,
  (length bs <= n)%nat -> utf8_decode_N bs = Some t ->
  forallb scalar t = true.
Proof.
  induction n as [|n IH]; intros [|b0 r0] t Hlen Hdec;
    try (injection Hdec as <-; reflexivity); simpl in Hlen; [lia|].
  cbn [utf8_decode_N] in Hdec.
  destruct (b0 <? 0x80) eqn:H1.
  { apply fmap_Some in Hdec as (t' & Hdec & ->). simpl.
    rewrite (IH r0 t') by (auto; lia).
    apply N.ltb_lt in H1. rewrite andb_true_r. apply scalar_spec. lia. }
  destruct (in_range 0xC2 0xDF b0) eqn:H2.
  { destruct r0 as [|b1 r1]; [discriminate|].
    destruct (is_continuation b1) eqn:Hb1; [|discriminate].
    apply fmap_Some in Hdec as (t' & Hdec & ->). simpl in *.
    rewrite (IH r1 t') by (auto; lia).
    now rewrite two_bytes_scalar. }
  destruct (in_range 0xE0 0xEF b0) eqn:H3.
  { destruct r0 as [|b1 [|b2 r2]]; try discriminate.
    destruct (in_range _ _ b1) eqn:Hb1; [|discriminate].
    destruct (is_continuation b2) eqn:Hb2; [|discriminate].
    apply fmap_Some in Hdec as (t' & Hdec & ->). simpl in *.
    rewrite (IH r2 t') by (auto; lia).
    now rewrite three_bytes_scalar. }
  destruct (in_range 0xF0 0xF4 b0) eqn:H4; [|discriminate].
  destruct r0 as [|b1 [|b2 [|b3 r3]]]; try discriminate.
  destruct (in_range _ _ b1) eqn:Hb1; [|discriminate].
  destruct (is_continuation b2) eqn:Hb2; [|discriminate].
  destruct (is_continuation b3) eqn:Hb3; [|discriminate].
  apply fmap_Some in Hdec as (t' & Hdec & ->). simpl in *.
  rewrite (IH r3 t') by (auto; lia).
  now rewrite four_bytes_scalar.
Qed.

Lemma forallb_strip (p : N -> bool) s :
  forallb p s = true -> forallb p (strip s) = true.
Proof.
  destruct (strip_spec s) as (pre & post & E & _). intros Hs.
  rewrite E, !forallb_app in Hs.
  now apply andb_prop in Hs as [_ [Hs _]%andb_prop].
Qed.

Section Decoded.
Context `{PythonRuntime}.

(** X17: whatever bytes it is given, the text [_check_and_process_bytes]
    returns is made of Unicode scalar values only: no code point is a
    surrogate or lies beyond U+10FFFF (overlong and out-of-range byte
    sequences are refused, not decoded). *)
Theorem processed_bytes_are_scalar_values (b : bytes) :
  match _check_and_process_bytes (PyBytes b) with
  | Ok s => forallb scalar s = true
  | Raise e => exc_class e = UnicodeDecodeError
  end.
Proof.
  simpl. unfold utf8_decode.
  destruct (utf8_decode_N _) as [t|] eqn:Hdec; [|reflexivity].
  apply forallb_strip.
  exact (utf8_decode_N_scalar _ _ t (Nat.le_refl _) Hdec).
Qed.
End Decoded.

Section Edges.
Context `{PythonRuntime}.

(** X18: below level INFO, when [stdout] is not a pipe there is nothing to
    stream and nothing to read: a child that exits with code 0, and whose
    standard error is read without failure (it is not a pipe, or what it
    yields decodes), makes the call return the empty string, whatever it
    wrote to its standard output and whatever the loading pattern would
    do. *)
Theorem unpiped_stdout_returns_empty os level command_args lp sw child err :
  let kwargs := effective_args command_args in
  (level < INFO)%Z ->
  is_PIPE (kwargs !! "stdout") = false ->
  os kwargs = Ok child ->
  child_wait child = Ok 0%Z ->
  _check_and_convert_stream_to_string (proc_stderr (attach kwargs child))
  = Ok err ->
  (run os level command_args lp sw).1 = Ok [].
Proof.
  intros kwargs Hlevel Hpipe Hos Hwait Herr.
  rewrite run_outcome. fold kwargs. rewrite Hos, supervise_outcome.
  unfold observe. apply Z.leb_gt in Hlevel. rewrite Hlevel.
  assert (Hout : proc_stdout (attach kwargs child) = None)
    by (unfold attach; simpl; now rewrite Hpipe).
  rewrite Hout. cbn [fst mret M_ret].
  unfold conclude. simpl proc_wait. now rewrite Hwait, Herr.
Qed.

(** X19: an exception of [Popen] that is neither an [OSError] nor a
    [ValueError] (the [TypeError] of a dictionary without ["args"], say)
    is not wrapped: the call raises that very exception. *)
Theorem other_launch_exception_passes_through os level command_args lp sw e :
  os (effective_args command_args) = Raise e ->
  caught e = false ->
  (run os level command_args lp sw).1 = Raise e.
Proof.
  intros Hos Hcaught. rewrite run_outcome, Hos. unfold rethrow.
  now rewrite Hcaught.
Qed.
End Edges.

(** ** Concrete calls *)

#[local] Existing Instance plain_runtime.

(** C1 as stated fails: the child wrote "  hi" and a line feed, whose
    trailing whitespace trimmed is "  hi", and the call returns "hi";
    below level INFO the child that wrote the lines "a" and "b" gets "ab"
    returned, without the line feed between them; and with [stderr=PIPE]
    a child that exits with code 0 and wrote "hi" to its standard output
    makes the call raise when its standard error is not valid UTF-8. *)
Lemma returned_output_is_not_trailing_trim :
  (run echo_os INFO echo_args default_pattern None).1 = Ok (txt "hi")
  /\ utf8_decode (encode_ascii ("  hi" +:+ LF)) = Some (txt ("  hi" +:+ LF))
  /\ rstrip (txt ("  hi" +:+ LF)) = txt "  hi"
  /\ txt "hi" <> txt "  hi"
  /\ (run lines_as_bytes DEBUG echo_args default_pattern None).1
     = Ok (txt "ab")
  /\ rstrip (txt ("a" +:+ LF +:+ "b" +:+ LF)) = txt ("a" +:+ LF +:+ "b")
  /\ txt "ab" <> txt ("a" +:+ LF +:+ "b")
  /\ raised_class (run garbled_stderr INFO piped_args default_pattern None).1
     = Some LoadingPatternError.
Proof. repeat split; try (vm_compute; reflexivity); discriminate. Qed.

(** The hypotheses of C1 hold for the child that wrote "  hi". *)
Lemma returns_stripped_stdout_witness :
  (INFO <= INFO)%Z
  /\ from_option truthy false (echo_args !! "stdout") = false
  /\ (run echo_os INFO echo_args default_pattern None).1
     = Ok (strip (txt ("  hi" +:+ LF))).
Proof.
  split; [discriminate|]. split; [reflexivity|].
  apply (returns_stripped_stdout echo_os INFO echo_args default_pattern None
           echo_child []); try reflexivity; discriminate.
Defined.

(** C5 fails on the code: the comment of lines 72 and 73 says that
    [stdout] is set to [PIPE] "if not specified"; here the caller
    specified a destination, the file descriptor 0, and [Popen] is called
    with [PIPE] in its place, because line 71 tests the entry for truth. *)
Lemma falsy_stdout_destination_replaced :
  fd0_args !! "stdout" = Some (VInt 0)
  /\ head (trace (run echo_os INFO fd0_args default_pattern None).2)
     = Some (Launch (<["stdout" := PIPE]> fd0_args))
  /\ <["stdout" := PIPE]> fd0_args !! "stdout" = Some PIPE
  /\ VInt 0 <> PIPE.
Proof. repeat split; try (vm_compute; reflexivity). discriminate. Qed.

(** C6 as stated fails: the same lines give "ab" when they come as bytes
    and, when the caller asks for [text=True] and they come as text, the
    two lines with their line feeds, not trimmed; and with [stderr=PIPE]
    a child that exits with code 0 makes the call raise when its standard
    error is not valid UTF-8. *)
Lemma streamed_text_lines_not_trimmed :
  (run lines_by_mode DEBUG echo_args default_pattern None).1 = Ok (txt "ab")
  /\ (run lines_by_mode DEBUG text_args default_pattern None).1
     = Ok (txt ("a" +:+ LF +:+ "b" +:+ LF))
  /\ txt ("a" +:+ LF +:+ "b" +:+ LF) <> txt "ab"
  /\ raised_class (run garbled_stderr DEBUG piped_args default_pattern None).1
     = Some LoadingPatternError.
Proof. repeat split; try (vm_compute; reflexivity). discriminate. Qed.

(** The hypotheses of C6 hold for the child that printed two lines of
    bytes. *)
Lemma streaming_concatenates_lines_witness :
  (DEBUG < INFO)%Z
  /\ is_PIPE (effective_args echo_args !! "stdout") = true
  /\ (run lines_as_bytes DEBUG echo_args default_pattern None).1
     = Ok (concat (strip <$> [txt ("a" +:+ LF); txt ("b" +:+ LF)])).
Proof.
  split; [reflexivity|]. split; [reflexivity|].
  apply (streaming_concatenates_lines lines_as_bytes DEBUG echo_args
           default_pattern None
           (mkChild 0
              (BinaryIO [encode_ascii ("a" +:+ LF); encode_ascii ("b" +:+ LF)])
              (BinaryIO []) (Ok 0%Z)) []);
    try reflexivity.
  repeat constructor.
Defined.

(** C7 as stated fails: the child was launched, the call ends with
    [LoadingPatternError] and nothing was written to the stream writer,
    both when a streamed line does not decode and when the wait fails
    after the indicator loop has ended. *)
Lemma no_line_separator_when_loop_or_wait_raises :
  says (trace (run invalid_line DEBUG echo_args default_pattern None).2) = []
  /\ raised_class (run invalid_line DEBUG echo_args default_pattern None).1
     = Some LoadingPatternError
  /\ says (trace (run failing_wait INFO echo_args default_pattern None).2) = []
  /\ raised_class (run failing_wait INFO echo_args default_pattern None).1
     = Some LoadingPatternError.
Proof. repeat split; vm_compute; reflexivity. Qed.

(** The hypotheses of C7 hold for the child that wrote "  hi". *)
Lemma line_separator_after_wait_witness :
  echo_os (effective_args echo_args) = Ok echo_child
  /\ child_wait echo_child = Ok 0%Z
  /\ says (trace (run echo_os INFO echo_args default_pattern None).2)
     = [Write StderrWriter linesep; Flush StderrWriter].
Proof.
  split; [reflexivity|]. split; [reflexivity|].
  apply (line_separator_after_wait echo_os INFO echo_args default_pattern None
           echo_child 0%Z); try reflexivity.
  vm_compute. repeat (first [left; reflexivity | right]).
Defined.

(** The hypothesis of C9 holds for a dictionary without [stdout]. *)
Lemma stdout_default_mutates_caller_witness :
  from_option truthy false (echo_args !! "stdout") = false
  /\ caller_args (run echo_os INFO echo_args default_pattern None).2
     = <["stdout" := PIPE]> echo_args.
Proof.
  split; [reflexivity|].
  apply (stdout_default_mutates_caller echo_os INFO echo_args default_pattern
           None).
  reflexivity.
Defined.

(** The hypothesis of C10 holds for a dictionary without [stderr]. *)
Lemma stderr_not_captured_without_pipe_witness :
  is_PIPE (echo_args !! "stderr") = false
  /\ forall written,
       run (with_stderr written echo_os) INFO echo_args default_pattern None
       = run echo_os INFO echo_args default_pattern None.
Proof.
  split; [reflexivity|].
  apply (stderr_not_captured_without_pipe echo_os INFO echo_args
           default_pattern None).
  reflexivity.
Defined.

(** C2 fails on the code: with braces in the standard error read,
    [message_fmt.format(ex=self.ex)] takes them for a replacement field
    and the call ends with [IndexError], not [LoadingPatternError]; with
    no brace the message is the one C2 describes. *)
Theorem nonzero_exit_with_braces_raises_IndexError :
  raised_class (run braces_on_stderr INFO piped_args default_pattern None).1
  = Some IndexError
  /\ (run words_on_stderr INFO piped_args default_pattern None).1
     = Raise (mkExc LoadingPatternError
                (txt ("Failed to execute the subprocess. The process ['tool']"
                      +:+ " returned a non-zero exit code 1. error: none"))).
Proof. split; vm_compute; reflexivity. Qed.

(** C4 fails on the code: with braces in the argument vector,
    [message_fmt.format(ex=self.ex)] takes them for a replacement field
    and the call ends with [IndexError], not [LoadingPatternError]; with
    no brace the message is the one C4 describes. *)
Theorem launch_failure_with_braces_raises_IndexError :
  raised_class (run no_such_file INFO missing_args default_pattern None).1
  = Some IndexError
  /\ (run no_such_file INFO plain_missing_args default_pattern None).1
     = Raise (mkExc LoadingPatternError
                (txt ("Failed to execute the subprocess. Subprocess execution"
                      +:+ " failed ['missing-tool']. [Errno 2] No such file"
                      +:+ " or directory: 'missing-tool'"))).
Proof. split; vm_compute; reflexivity. Qed.

(** ** The hypotheses of the further properties hold *)

Lemma indicator_calls_pattern_after_each_pending_poll_witness :
  (INFO <= INFO)%Z
  /\ echo_os (effective_args echo_args) = Ok echo_child
  /\ polls_and_patterns
       (trace (run echo_os INFO echo_args default_pattern None).2)
     = [Poll;
        Pattern [Write StderrWriter (txt "."); Flush StderrWriter;
                 Sleep (1 # 2)];
        Poll].
Proof.
  split; [discriminate|]. split; [reflexivity|].
  apply (indicator_calls_pattern_after_each_pending_poll echo_os INFO
           echo_args default_pattern None echo_child);
    try reflexivity; discriminate.
Defined.

Lemma default_pattern_draws_one_dot_per_pending_poll_witness :
  (INFO <= INFO)%Z
  /\ child_wait echo_child = Ok 0%Z
  /\ written StderrWriter
       (trace (run echo_os INFO echo_args default_pattern None).2)
     = txt "." ++ linesep.
Proof.
  split; [discriminate|]. split; [reflexivity|].
  apply (default_pattern_draws_one_dot_per_pending_poll echo_os INFO
           echo_args None echo_child 0%Z);
    try reflexivity; discriminate.
Defined.

Lemma streaming_logs_each_line_witness :
  (DEBUG < INFO)%Z
  /\ is_PIPE (effective_args echo_args !! "stdout") = true
  /\ debug_lines (trace (run lines_as_bytes DEBUG echo_args default_pattern
                           None).2)
     = [txt "a"; txt "b"].
Proof.
  split; [reflexivity|]. split; [reflexivity|].
  apply (streaming_logs_each_line lines_as_bytes DEBUG echo_args
           default_pattern None
           (mkChild 0
              (BinaryIO [encode_ascii ("a" +:+ LF); encode_ascii ("b" +:+ LF)])
              (BinaryIO []) (Ok 0%Z)));
    try reflexivity.
  repeat constructor.
Defined.

Lemma failed_launch_does_nothing_else_witness :
  trace (run no_such_file INFO plain_missing_args default_pattern None).2
  = [Launch (effective_args plain_missing_args)].
Proof.
  apply (failed_launch_does_nothing_else no_such_file INFO plain_missing_args
           default_pattern None
           (mkExc FileNotFoundError
              (txt "[Errno 2] No such file or directory: 'missing-tool'"))).
  reflexivity.
Defined.

Lemma pattern_exception_passes_through_witness :
  (failing_pattern 1%nat StderrWriter).2 = Some interrupted
  /\ caught interrupted = false
  /\ (run slow_os INFO echo_args failing_pattern None).1 = Raise interrupted.
Proof.
  split; [reflexivity|]. split; [reflexivity|].
  apply (pattern_exception_passes_through slow_os INFO echo_args
           failing_pattern None slow_child 1%nat interrupted);
    try reflexivity; try discriminate.
  - simpl. lia.
  - intros [|n] Hn; [reflexivity | lia].
Defined.

Lemma given_stdout_leaves_dictionary_witness :
  from_option truthy false (file_args !! "stdout") = true
  /\ caller_args (run echo_os INFO file_args default_pattern None).2
     = file_args.
Proof.
  split; [reflexivity|].
  apply (given_stdout_leaves_dictionary echo_os INFO file_args default_pattern
           None).
  reflexivity.
Defined.

Lemma stdout_not_captured_without_pipe_witness :
  is_PIPE (effective_args file_args !! "stdout") = false
  /\ run (with_stdout (BinaryIO []) echo_os) INFO file_args default_pattern None
     = run echo_os INFO file_args default_pattern None.
Proof.
  split; [reflexivity|].
  apply (stdout_not_captured_without_pipe echo_os INFO file_args
           default_pattern None (BinaryIO [])).
  reflexivity.
Defined.

Lemma constructor_rejects_empty_field_witness :
  plain (txt "error: ") = true
  /\ new_LoadingPatternError (txt "error: " ++ txt "{}" ++ [])
     = Raise (positional_error 0).
Proof.
  split; [reflexivity|].
  apply (constructor_rejects_empty_field (txt "error: ") []). reflexivity.
Defined.

Lemma constructor_substitutes_ex_field_witness :
  plain (txt "see ") = true
  /\ new_LoadingPatternError (txt "see " ++ txt "{ex}" ++ [])
     = Ok (mkExc LoadingPatternError
             (txt "Failed to execute the subprocess. " ++ txt "see "
              ++ (txt "see " ++ txt "{ex}" ++ []) ++ [])).
Proof.
  split; [reflexivity|].
  apply (constructor_substitutes_ex_field (txt "see ") []); reflexivity.
Defined.

Lemma constructor_rejects_single_brace_witness :
  plain (txt "unexpected ") = true
  /\ new_LoadingPatternError (txt "unexpected " ++ txt "{")
     = Raise (format_error "Single '{' encountered in format string").
Proof.
  split; [reflexivity|].
  apply (constructor_rejects_single_brace (txt "unexpected ")). reflexivity.
Defined.

Lemma wait_failure_is_wrapped_witness :
  child_wait (mkChild 1 (BinaryIO []) (BinaryIO [])
                (Raise (mkExc OSError (txt "[WinError 6] The handle is invalid"))))
  = Raise (mkExc OSError (txt "[WinError 6] The handle is invalid"))
  /\ says (trace (run failing_wait INFO echo_args default_pattern None).2) = [].
Proof.
  split; [reflexivity|].
  apply (wait_failure_is_wrapped failing_wait INFO echo_args default_pattern
           None
           (mkChild 1 (BinaryIO []) (BinaryIO [])
              (Raise (mkExc OSError
                        (txt "[WinError 6] The handle is invalid"))))
           (mkExc OSError (txt "[WinError 6] The handle is invalid")));
    try reflexivity.
  vm_compute. repeat (first [left; reflexivity | right]).
Defined.

Lemma undecodable_output_fails_the_call_witness :
  utf8_decode (concat [[xff]]) = None
  /\ raised_class (run invalid_line INFO echo_args default_pattern None).1
     = Some LoadingPatternError.
Proof.
  split; [reflexivity|].
  rewrite (undecodable_output_fails_the_call invalid_line INFO echo_args
             default_pattern None
             (mkChild 0 (BinaryIO [[xff]]) (BinaryIO []) (Ok 0%Z)) 0%Z [[xff]]);
    try reflexivity; discriminate.
Defined.

Lemma streaming_stops_at_undecodable_line_witness :
  (DEBUG < INFO)%Z
  /\ _check_and_process_bytes (PyBytes [xff])
     = Raise (mkExc UnicodeDecodeError (decode_error_text [xff]))
  /\ debug_lines
       (trace (run second_line_invalid DEBUG echo_args default_pattern None).2)
     = [txt "ok"].
Proof.
  split; [reflexivity|]. split; [reflexivity|].
  apply (streaming_stops_at_undecodable_line second_line_invalid DEBUG
           echo_args default_pattern None second_line_invalid_child
           [PyBytes (encode_ascii ("ok" +:+ LF))] [txt "ok"]
           (PyBytes [xff]) []
           (mkExc UnicodeDecodeError (decode_error_text [xff])));
    try reflexivity.
  repeat constructor.
Defined.

Lemma ascii_bytes_are_processed_witness :
  forallb (fun x => Byte.to_N x <? 0x80) (encode_ascii " hi ") = true
  /\ _check_and_process_bytes (PyBytes (encode_ascii " hi "))
     = Ok (strip (Byte.to_N <$> encode_ascii " hi ")).
Proof.
  split; [reflexivity|].
  apply (ascii_bytes_are_processed (encode_ascii " hi ")). reflexivity.
Defined.

Lemma unpiped_stdout_returns_empty_witness :
  (DEBUG < INFO)%Z
  /\ is_PIPE (effective_args file_args !! "stdout") = false
  /\ (run echo_os DEBUG file_args default_pattern None).1 = Ok [].
Proof.
  split; [reflexivity|]. split; [reflexivity|].
  apply (unpiped_stdout_returns_empty echo_os DEBUG file_args default_pattern
           None echo_child []); reflexivity.
Defined.

Lemma other_launch_exception_passes_through_witness :
  caught no_args_given = false
  /\ (run refuses_arguments INFO ∅ default_pattern None).1
     = Raise no_args_given.
Proof.
  split; [reflexivity|].
  apply (other_launch_exception_passes_through refuses_arguments INFO ∅
           default_pattern None no_args_given); reflexivity.
Defined.

Lemma nonzero_exit_never_returns_witness :
  child_wait (mkChild 1 (BinaryIO []) (BinaryIO [encode_ascii "error: none"])
                (Ok 1%Z)) = Ok 1%Z
  /\ (run words_on_stderr INFO piped_args default_pattern None).1 <> Ok [].
Proof.
  split; [reflexivity|].
  apply (nonzero_exit_never_returns words_on_stderr INFO piped_args
           default_pattern None
           (mkChild 1 (BinaryIO []) (BinaryIO [encode_ascii "error: none"])
              (Ok 1%Z)) 1%Z []);
    try reflexivity. discriminate.
Defined.

Lemma launch_failure_never_returns_witness :
  (run no_such_file INFO plain_missing_args default_pattern None).1 <> Ok [].
Proof.
  apply (launch_failure_never_returns no_such_file INFO plain_missing_args
           default_pattern None
           (mkExc FileNotFoundError
              (txt "[Errno 2] No such file or directory: 'missing-tool'")) []).
  reflexivity.
Defined.

Lemma nonzero_exit_message_when_plain_witness :
  (INFO <= INFO)%Z
  /\ raised_class (run words_on_stderr INFO piped_args default_pattern None).1
     = Some LoadingPatternError.
Proof.
  split; [discriminate|].
  rewrite (nonzero_exit_message_when_plain words_on_stderr INFO piped_args
             default_pattern None
             (mkChild 1 (BinaryIO [])
                (BinaryIO [encode_ascii "error: none"]) (Ok 1%Z))
             1%Z [] (txt "error: none"));
    try reflexivity; discriminate.
Defined.

Lemma launch_failure_message_when_plain_witness :
  caught (mkExc FileNotFoundError
            (txt "[Errno 2] No such file or directory: 'missing-tool'")) = true
  /\ raised_class
       (run no_such_file INFO plain_missing_args default_pattern None).1
     = Some LoadingPatternError.
Proof.
  split; [reflexivity|].
  rewrite (launch_failure_message_when_plain no_such_file INFO
             plain_missing_args default_pattern None
             (mkExc FileNotFoundError
                (txt "[Errno 2] No such file or directory: 'missing-tool'")));
    reflexivity.
Defined.
